(** * Agent and recipe specifications: validation and rendering

    A shallow embedding of [scripts/validator.py], [scripts/renderer.py],
    [adapters/claude/__init__.py] and [adapters/langgraph/__init__.py].

    Parsed YAML mappings are records whose fields are [option]s: [None] is an
    absent key, so that [d.get(k, default)] is [default (d.(k))] and
    [k in d] is [is_Some (d.(k))].  Scalar fields carry the types the agent
    and recipe schemas give them (strings); the name of a stage, which the
    duplicate check counts, collects in a set and joins, is a scalar of any
    of the types [str], [int] and [NoneType].  A parsed document is an
    [option] of such a record, [None] being the Python [None] that
    [yaml.safe_load] returns for an empty document.

    Third-party libraries (PyYAML, jsonschema, Jinja2, json, pathlib) are
    interfaces: type classes whose methods the embedded code calls. *)

From Stdlib Require Import Ascii String.
From stdpp Require Import gmap strings list sorting pretty.

Set Warnings "-clear-no-such-hyp".

(** ** Python runtime notions *)

Module Py.

(** Exceptions, by the classes the code's [except] clauses tell apart. *)
Inductive exn : Type :=
| FileNotFoundError (msg : string)
| YAMLError (msg : string)
| AttributeError (msg : string)
| TypeError (msg : string)
| TemplateNotFound (name : string)
| Exception (msg : string).

(** [str(e)] *)
Definition exn_str (e : exn) : string :=
  match e with
  | FileNotFoundError msg | YAMLError msg | AttributeError msg | TypeError msg
  | TemplateNotFound msg | Exception msg => msg
  end.

(** The outcome of a call: it returns a value or it raises. *)
Inductive result (A : Type) : Type :=
| Ok (a : A)
| Raise (e : exn).
Arguments Ok {A} a.
Arguments Raise {A} e.

#[global] Instance result_ret : MRet result := λ A a, Ok a.
#[global] Instance result_bind : MBind result := λ A B k m,
  match m with
  | Ok a => k a
  | Raise e => Raise e
  end.

(** [try: body  except ... as e: handler e] *)
Definition try_except {A : Type} (body : result A) (handler : exn → result A) : result A :=
  match body with
  | Ok a => Ok a
  | Raise e => handler e
  end.

(** A scalar of a YAML document: a [str], an [int] or [None]. *)
Inductive scalar : Type :=
| Str (s : string)
| Int (n : Z)
| Null.

#[global] Instance scalar_eq_dec : EqDecision scalar.
Proof. solve_decision. Defined.

#[global] Instance scalar_countable : Countable scalar.
Proof.
  refine (inj_countable'
    (λ v, match v with Str s => inl s | Int n => inr (inl n) | Null => inr (inr ()) end)
    (λ x, match x with inl s => Str s | inr (inl n) => Int n | inr (inr _) => Null end) _).
  by intros [].
Defined.

(** [str(v)], which an f-string applies to the value it formats. *)
Definition str (v : scalar) : string :=
  match v with
  | Str s => s
  | Int n => pretty n
  | Null => "None"
  end.

(** [type(v).__name__] *)
Definition type_name (v : scalar) : string :=
  match v with
  | Str _ => "str"
  | Int _ => "int"
  | Null => "NoneType"
  end.

(** [str(i)] of a non-negative integer. *)
Definition str_of_nat (i : nat) : string := pretty i.

(** [sep.join(items)] on items that are [str]. *)
Fixpoint join (sep : string) (items : list string) : string :=
  match items with
  | [] => ""
  | [x] => x
  | x :: rest => x +:+ sep +:+ join sep rest
  end.

(** The items [sep.join] goes through, from the item at position [i] on: the
    first that is not a [str] raises [TypeError]. *)
Fixpoint str_items (i : nat) (items : list scalar) : result (list string) :=
  match items with
  | [] => mret []
  | Str s :: rest => strs ← str_items (S i) rest; mret (s :: strs)
  | v :: _ =>
      Raise (TypeError ("sequence item " +:+ str_of_nat i +:+ ": expected str instance, "
                          +:+ type_name v +:+ " found"))
  end.

(** [sep.join(items)] on items of any type. *)
Definition join_scalars (sep : string) (items : list scalar) : result string :=
  strs ← str_items 0 items;
  mret (join sep strs).

(** [s.replace(old, new)] for one-character [old] and [new]. *)
Fixpoint replace (old new : ascii) (s : string) : string :=
  match s with
  | EmptyString => EmptyString
  | String c rest => String (if Ascii.eqb c old then new else c) (replace old new rest)
  end.

(** [l.count(x)] *)
Definition count {A : Type} `{EqDecision A} (x : A) (l : list A) : nat :=
  length (filter (λ y, y = x) l).

(** [s.startswith(p)] *)
Definition startswith (p s : string) : bool := String.prefix p s.

(** [s1 <= s2] on [str]: lexicographic on the characters' codes. *)
Definition str_le (s1 s2 : string) : Prop := String.leb s1 s2 = true.

#[global] Instance str_le_dec : RelDecision str_le.
Proof. intros s1 s2. unfold str_le. apply _. Defined.

(** [sorted(items)] *)
Definition sorted (items : list string) : list string :=
  merge_sort str_le items.

(** A [set] is a [gset].  Python leaves the order in which a set is iterated
    unspecified; [set_iter] is any enumeration of the elements without
    repetition. *)
Class SetOrder : Type := {
  set_iter : ∀ {A : Type} `{Countable A}, gset A → list A;
  set_iter_perm : ∀ {A : Type} `{Countable A} (X : gset A), set_iter X ≡ₚ elements X
}.

(** The file system: the text files, by path.  [open(path, 'r')] of a path with
    no file raises [FileNotFoundError]; [open(path, 'w')] creates or replaces. *)
Definition open_read (fs : gmap string string) (path : string) : result string :=
  match fs !! path with
  | Some text => Ok text
  | None => Raise (FileNotFoundError ("[Errno 2] No such file or directory: '" +:+ path +:+ "'"))
  end.

Definition open_write (fs : gmap string string) (path text : string) : gmap string string :=
  <[path := text]> fs.

(** [sub in s] on [str]: [sub] occurs in [s]. *)
Fixpoint str_in (sub s : string) : bool :=
  String.prefix sub s ||
  match s with
  | EmptyString => false
  | String _ rest => str_in sub rest
  end.

(** The character [34], which a string literal cannot hold. *)
Definition dquote : string := String "034"%char EmptyString.

End Py.

Import Py.

(** ** The parsed documents *)

Module Spec.

(** [d.get(k, dflt)] and [k in d] on an optional key. *)
Definition get {A : Type} (o : option A) (dflt : A) : A := default dflt o.
Definition contains {A : Type} (o : option A) : bool :=
  match o with Some _ => true | None => false end.

(** A step of a stage refers to an agent. *)
Record Step : Type := { agent : option string }.

(** A stage of a recipe's graph: the keys [stage], [parallel], [sequence]. *)
Record Stage : Type := {
  stage : option scalar;
  parallel : option (list Step);
  sequence : option (list Step)
}.

Record Recipe : Type := {
  recipe_id : option string;
  recipe_name : option string;
  recipe_summary : option string;
  graph : option (list Stage);
  recipe_version : option string
}.

(** The [model] mapping of an agent. *)
Record Model : Type := {
  provider : option string;
  family : option string;
  tier : option string
}.

(** A tool descriptor: the keys [id], [type], [description]. *)
Record Tool : Type := {
  tool_id : option string;
  tool_type : option string;
  description : option string
}.

Record Ownership : Type := { owner : option string }.

(** The empty mapping [{}] given as default to [.get('model', {})] and
    [.get('ownership', {})]. *)
Definition empty_model : Model :=
  {| provider := None; family := None; tier := None |}.
Definition empty_ownership : Ownership := {| owner := None |}.

Record Agent : Type := {
  id : option string;
  name : option string;
  summary : option string;
  role : option string;
  model : option Model;
  tools : option (list Tool);
  ownership : option Ownership;
  version : option string
}.

End Spec.

Import Spec.

(** ** [scripts/validator.py] *)

(** What jsonschema reports for one violation: [error.absolute_path] (property
    names and array indices from the root) and [error.message]. *)
Inductive path_elem : Type :=
| Key (k : string)
| Index (i : nat).

Record ValidationError : Type := {
  absolute_path : list path_elem;
  message : string
}.

(** [str(p)] of a path element. *)
Definition str_of_path_elem (p : path_elem) : string :=
  match p with
  | Key k => k
  | Index i => str_of_nat i
  end.

(** PyYAML: [yaml.safe_load] of a file's text returns the document, [None] for
    an empty one, or raises [yaml.YAMLError]. *)
Class Yaml (Doc : Type) : Type := {
  safe_load : string → result (option Doc)
}.

(** [json.load] of a schema file, and jsonschema's
    [Draft202012Validator(schema).iter_errors(data)]: the violations the
    generator yields when it is run to its end, or the exception it raises. *)
Class JsonSchema (Schema Doc : Type) : Type := {
  json_load : string → result Schema;
  iter_errors : Schema → option Doc → result (list ValidationError)
}.

Module AgentValidator.
Section AgentValidator.
Context {Schema Doc : Type} `{!Yaml Doc, !JsonSchema Schema Doc}.

Record t : Type := {
  schema_path : string;
  schema : Schema
}.

Definition __init__ (fs : gmap string string) (schema_path : string) : result t :=
  text ← open_read fs schema_path;
  schema ← json_load text;
  mret {| schema_path := schema_path; schema := schema |}.

Definition _format_validation_error (error : ValidationError) : string :=
  match absolute_path error with
  | _ :: _ =>
      let path := join "." (str_of_path_elem <$> absolute_path error) in
      "Field '" +:+ path +:+ "': " +:+ message error
  | [] => message error
  end.

(** The loop [for error in ...: errors.append(self._format_validation_error(error))]. *)
Definition collect_errors (found : list ValidationError) : list string :=
  foldl (λ errors error, errors ++ [_format_validation_error error]) [] found.

Definition validate_file (self : t) (fs : gmap string string) (yaml_path : string)
  : result (bool * list string) :=
  try_except
    (text ← open_read fs yaml_path;
     data ← safe_load text;
     found ← iter_errors (schema self) data;
     let errors := collect_errors found in
     mret (bool_decide (length errors = 0), errors))
    (λ e, match e with
          | YAMLError msg => mret (false, ["YAML parsing error: " +:+ msg])
          | FileNotFoundError _ => mret (false, ["File not found: " +:+ yaml_path])
          | _ => mret (false, ["Validation error: " +:+ exn_str e])
          end).

Definition validate_data (self : t) (data : Doc) : result (bool * list string) :=
  try_except
    (found ← iter_errors (schema self) (Some data);
     let errors := collect_errors found in
     mret (bool_decide (length errors = 0), errors))
    (λ e, mret (false, ["Validation error: " +:+ exn_str e])).

End AgentValidator.
End AgentValidator.

Module RecipeValidator.
Section RecipeValidator.
Context {Schema : Type} `{!Yaml Recipe, !JsonSchema Schema Recipe, !SetOrder}.

Record t : Type := {
  schema_path : string;
  schema : Schema
}.

Definition __init__ (fs : gmap string string) (schema_path : string) : result t :=
  text ← open_read fs schema_path;
  schema ← json_load text;
  mret {| schema_path := schema_path; schema := schema |}.

Definition _format_validation_error (error : ValidationError) : string :=
  match absolute_path error with
  | _ :: _ =>
      let path := join "." (str_of_path_elem <$> absolute_path error) in
      "Field '" +:+ path +:+ "': " +:+ message error
  | [] => message error
  end.

Definition collect_errors (found : list ValidationError) : list string :=
  foldl (λ errors error, errors ++ [_format_validation_error error]) [] found.

(** [[stage.get('stage') for stage in graph if 'stage' in stage]] *)
Definition stage_names (graph : list Stage) : list scalar :=
  omap stage graph.

(** [set([name for name in stage_names if stage_names.count(name) > 1])] *)
Definition duplicate_stages (stage_names : list scalar) : gset scalar :=
  list_to_set (filter (λ name, 1 < count name stage_names) stage_names).

(** The loop [for i, stage in enumerate(graph)], from index [i] on. *)
Fixpoint check_stages (i : nat) (graph : list Stage) (errors : list string) : list string :=
  match graph with
  | [] => errors
  | s :: rest =>
      let has_parallel := contains (parallel s) in
      let has_sequence := contains (sequence s) in
      let errors :=
        if negb has_parallel && negb has_sequence then
          let stage_name := get (stage s) (Str ("stage_" +:+ str_of_nat i)) in
          errors ++ ["Stage '" +:+ str stage_name
                       +:+ "' must have either 'parallel' or 'sequence' field"]
        else errors in
      let errors :=
        if has_parallel && has_sequence then
          let stage_name := get (stage s) (Str ("stage_" +:+ str_of_nat i)) in
          errors ++ ["Stage '" +:+ str stage_name
                       +:+ "' cannot have both 'parallel' and 'sequence' fields"]
        else errors in
      check_stages (S i) rest errors
  end.

Definition _validate_recipe_semantics (data : option Recipe) : result (list string) :=
  match data with
  | None => Raise (AttributeError "'NoneType' object has no attribute 'get'")
  | Some data =>
      let errors := [] in
      let graph := get (graph data) [] in
      let names := stage_names graph in
      let duplicates := duplicate_stages names in
      errors ←
        (if decide (duplicates = ∅) then mret errors
         else
           joined ← join_scalars ", " (set_iter duplicates);
           mret (errors ++ ["Duplicate stage names found: " +:+ joined]));
      mret (check_stages 0 graph errors)
  end.

Definition validate_file (self : t) (fs : gmap string string) (yaml_path : string)
  : result (bool * list string) :=
  try_except
    (text ← open_read fs yaml_path;
     data ← safe_load text;
     found ← iter_errors (schema self) data;
     let errors := collect_errors found in
     semantic_errors ← _validate_recipe_semantics data;
     let errors := errors ++ semantic_errors in
     mret (bool_decide (length errors = 0), errors))
    (λ e, match e with
          | YAMLError msg => mret (false, ["YAML parsing error: " +:+ msg])
          | FileNotFoundError _ => mret (false, ["File not found: " +:+ yaml_path])
          | _ => mret (false, ["Validation error: " +:+ exn_str e])
          end).

End RecipeValidator.
End RecipeValidator.

(** ** [scripts/renderer.py] *)

(** JSON values as [json.dump] takes them: a Python [dict] literal is an object
    whose members stand in the order they were written. *)
#[warnings="-register-all"]
Inductive json : Type :=
| JNull
| JString (s : string)
| JArray (items : list json)
| JObject (members : list (string * json)).

(** The value of [d.get(k)] for a string-valued key: the string, or [None]. *)
Definition json_of_get (o : option string) : json :=
  match o with
  | Some s => JString s
  | None => JNull
  end.

(** [json.dump(config, f, indent=2, ensure_ascii=False)]: the text written. *)
Class JsonDump : Type := {
  json_dump : json → string
}.

(** pathlib: [dir / name] and [path.stem], on paths written as strings. *)
Class Pathlib : Type := {
  truediv : string → string → string;
  stem : string → string
}.

(** Jinja2's [Environment(loader=FileSystemLoader(templates_dir), ...)]. *)
Record Environment : Type := {
  loader : string;
  trim_blocks : bool;
  lstrip_blocks : bool
}.

(** Jinja2: [from_string env source] is the template the environment compiles
    from a source text, and [render template spec] the text that
    [template.render(spec=spec)] returns; each of them may raise. *)
Class Jinja2 (Template : Type) : Type := {
  from_string : Environment → string → result Template;
  render : Template → option Agent → result string
}.

(** [env.get_template(name)] with a [FileSystemLoader]: the template compiled
    from the text of the file [name] of the loader's directory, with the files
    [fs] on disk; [jinja2.TemplateNotFound] when there is no such file. *)
Definition get_template {Template : Type} `{!Jinja2 Template, !Pathlib}
    (fs : gmap string string) (env : Environment) (name : string) : result Template :=
  match fs !! truediv (loader env) name with
  | Some source => from_string env source
  | None => Raise (TemplateNotFound name)
  end.

Module AgentRenderer.
Section AgentRenderer.
Context {Template : Type} `{!Yaml Agent, !Jinja2 Template, !Pathlib, !JsonDump}.

Record t : Type := {
  templates_dir : string;
  env : Environment
}.

Definition __init__ (templates_dir : string) : t :=
  {| templates_dir := templates_dir;
     env := {| loader := templates_dir; trim_blocks := true; lstrip_blocks := true |} |}.

Definition load_agent_spec (fs : gmap string string) (spec_path : string)
  : result (option Agent) :=
  text ← open_read fs spec_path;
  safe_load text.

(** The strategies return the path of the file they wrote and the files they
    leave.  Directories are not tracked, so
    [output_dir.mkdir(parents=True, exist_ok=True)] leaves the files as they
    are. *)
Definition render_claude_agent (self : t) (fs : gmap string string)
    (spec_path output_dir : string) : result (string * gmap string string) :=
  spec ← load_agent_spec fs spec_path;
  template ← get_template fs (env self) "claude_subagent.md.jinja";
  content ← render template spec;
  match spec with
  | None => Raise (AttributeError "'NoneType' object has no attribute 'get'")
  | Some spec =>
      let agent_id := get (id spec) (stem spec_path) in
      let output_file := truediv output_dir (agent_id +:+ ".md") in
      mret (output_file, open_write fs output_file content)
  end.

Definition render_langgraph_agent (self : t) (fs : gmap string string)
    (spec_path output_dir : string) : result (string * gmap string string) :=
  spec ← load_agent_spec fs spec_path;
  template ← get_template fs (env self) "langgraph_agent.py.jinja";
  content ← render template spec;
  match spec with
  | None => Raise (AttributeError "'NoneType' object has no attribute 'get'")
  | Some spec =>
      let agent_id := get (id spec) (stem spec_path) in
      let output_file := truediv output_dir (replace "-" "_" agent_id +:+ "_agent.py") in
      mret (output_file, open_write fs output_file content)
  end.

Definition tier_mapping : gmap string string :=
  list_to_map [("gpt-3.5", "gpt-3.5-turbo"); ("gpt-4", "gpt-4"); ("gpt-4o", "gpt-4o")].

Definition _map_model_to_openai (model_config : Model) : string :=
  let provider := get (provider model_config) "openai" in
  let tier := get (tier model_config) "gpt-4" in
  if decide (provider = "openai") then get (tier_mapping !! tier) "gpt-4"
  else "gpt-4".

Definition _map_tools_to_openai (tools : list Tool) : list json :=
  foldl (λ openai_tools tool,
    let tool_type := tool_type tool in
    if decide (tool_type = Some "builtin") then
      let tool_id := tool_id tool in
      if decide (tool_id ∈ [Some "code_interpreter"; Some "file_search"]) then
        openai_tools ++ [JObject [("type", json_of_get tool_id)]]
      else openai_tools
    else if decide (tool_type = Some "http") then
      openai_tools ++
        [JObject
           [("type", JString "function");
            ("function",
             JObject
               [("name", json_of_get (tool_id tool));
                ("description", JString (get (description tool) ""));
                ("parameters",
                 JObject
                   [("type", JString "object");
                    ("properties", JObject []);
                    ("required", JArray [])])])]]
    else openai_tools) [] tools.

Definition assistant_config (spec : Agent) : json :=
  JObject
    [("name", json_of_get (name spec));
     ("description", json_of_get (summary spec));
     ("instructions", json_of_get (role spec));
     ("model", JString (_map_model_to_openai (get (model spec) empty_model)));
     ("tools", JArray (_map_tools_to_openai (get (tools spec) [])));
     ("metadata",
      JObject
        [("agent_id", json_of_get (id spec));
         ("version", json_of_get (version spec));
         ("owner", json_of_get (owner (get (ownership spec) empty_ownership)))])].

Definition render_assistant_config (self : t) (fs : gmap string string)
    (spec_path output_dir : string) : result (string * gmap string string) :=
  spec ← load_agent_spec fs spec_path;
  match spec with
  | None => Raise (AttributeError "'NoneType' object has no attribute 'get'")
  | Some spec =>
      let config := assistant_config spec in
      let agent_id := get (id spec) (stem spec_path) in
      let output_file := truediv output_dir (agent_id +:+ "_assistant.json") in
      mret (output_file, open_write fs output_file (json_dump config))
  end.

End AgentRenderer.
End AgentRenderer.

(** ** [adapters/claude/__init__.py] *)

Module ClaudeAdapter.
Section ClaudeAdapter.
Context {Template : Type} `{!Jinja2 Template, !Pathlib}.

Record t : Type := {
  templates_dir : string;
  env : Environment
}.

Definition __init__ (templates_dir : string) : t :=
  {| templates_dir := templates_dir;
     env := {| loader := templates_dir; trim_blocks := true; lstrip_blocks := true |} |}.

Definition render_agent (self : t) (fs : gmap string string) (spec : option Agent)
  : result string :=
  template ← get_template fs (env self) "claude_subagent.md.jinja";
  render template spec.

End ClaudeAdapter.

Section files.
Context {Template : Type} `{!Yaml Agent, !Jinja2 Template, !Pathlib}.

Definition generate_subagent_file (self : t) (fs : gmap string string)
    (spec_path output_dir : string) : result (string * gmap string string) :=
  text ← open_read fs spec_path;
  spec ← safe_load text;
  markdown_content ← render_agent self fs spec;
  match spec with
  | None => Raise (AttributeError "'NoneType' object has no attribute 'get'")
  | Some spec =>
      let agent_id := get (id spec) (stem spec_path) in
      let output_file := truediv output_dir (agent_id +:+ ".md") in
      mret (output_file, open_write fs output_file markdown_content)
  end.

End files.
End ClaudeAdapter.

(** ** [adapters/langgraph/__init__.py] *)

Module LangGraphAdapter.
Section LangGraphAdapter.
Context {Template : Type} `{!Jinja2 Template, !Pathlib, !SetOrder}.

Record t : Type := {
  templates_dir : string;
  env : Environment
}.

Definition __init__ (templates_dir : string) : t :=
  {| templates_dir := templates_dir;
     env := {| loader := templates_dir; trim_blocks := true; lstrip_blocks := true |} |}.

Definition render_agent (self : t) (fs : gmap string string) (spec : option Agent)
  : result string :=
  template ← get_template fs (env self) "langgraph_agent.py.jinja";
  render template spec.

Definition newline : string := String "010"%char EmptyString.

Definition base_requirements : gset string :=
  list_to_set ["langgraph>=0.0.60"; "langchain>=0.1.0"; "langchain-core>=0.1.0"].

(** The loop [for spec in specs] over the set [requirements]. *)
Definition add_model_requirements (requirements : gset string) (specs : list Agent)
  : gset string :=
  foldl (λ requirements spec,
    let provider := get (provider (get (model spec) empty_model)) "anthropic" in
    if decide (provider = "anthropic") then
      requirements ∪ {["langchain-anthropic>=0.1.0"]}
    else if decide (provider = "openai") then
      requirements ∪ {["langchain-openai>=0.1.0"]}
    else requirements) requirements specs.

(** The lines [for req in sorted(requirements)] writes, in order. *)
Definition requirement_lines (specs : list Agent) : list string :=
  sorted (set_iter (add_model_requirements base_requirements specs)).

Definition generate_requirements_file (self : t) (fs : gmap string string)
    (specs : list Agent) (output_dir : string) : string * gmap string string :=
  let requirements_file := truediv output_dir "requirements.txt" in
  let text := foldl (λ f req, f +:+ req +:+ newline) "" (requirement_lines specs) in
  (requirements_file, open_write fs requirements_file text).

End LangGraphAdapter.

(** The text [generate_app_file] starts the program with. *)
Definition app_header : string :=
  dquote
  +:+ dquote
  +:+ dquote
  +:+ "LangGraph Agents Application

Generated agent collection with FastAPI server.
"
  +:+ dquote
  +:+ dquote
  +:+ dquote
  +:+ "

import asyncio
from typing import Dict, Any, List
from fastapi import FastAPI, HTTPException
from pydantic import BaseModel
import uvicorn

# Import all generated agents
".

(** The text between the imports and the entries of the registry. *)
Definition app_registry : string :=
  "

app = FastAPI(title="
  +:+ dquote
  +:+ "LangGraph Agents API"
  +:+ dquote
  +:+ ", version="
  +:+ dquote
  +:+ "1.0.0"
  +:+ dquote
  +:+ ")

# Agent registry
agents = {}

class AgentRequest(BaseModel):
    message: str
    agent_id: str
    metadata: Dict[str, Any] = {}

class AgentResponse(BaseModel):
    success: bool
    response: str = None
    error: str = None
    agent_id: str
    metadata: Dict[str, Any] = {}

@app.on_event("
  +:+ dquote
  +:+ "startup"
  +:+ dquote
  +:+ ")
async def startup_event():
    "
  +:+ dquote
  +:+ dquote
  +:+ dquote
  +:+ "Initialize all agents."
  +:+ dquote
  +:+ dquote
  +:+ dquote
  +:+ "
    global agents
    
".

(** The text after the entries of the registry. *)
Definition app_endpoints : string :=
  "
    print(f"
  +:+ dquote
  +:+ "Initialized {len(agents)} agents: {list(agents.keys())}"
  +:+ dquote
  +:+ ")

@app.get("
  +:+ dquote
  +:+ "/"
  +:+ dquote
  +:+ ")
async def root():
    "
  +:+ dquote
  +:+ dquote
  +:+ dquote
  +:+ "Root endpoint with API information."
  +:+ dquote
  +:+ dquote
  +:+ dquote
  +:+ "
    return {
        "
  +:+ dquote
  +:+ "message"
  +:+ dquote
  +:+ ": "
  +:+ dquote
  +:+ "LangGraph Agents API"
  +:+ dquote
  +:+ ",
        "
  +:+ dquote
  +:+ "agents"
  +:+ dquote
  +:+ ": list(agents.keys()),
        "
  +:+ dquote
  +:+ "endpoints"
  +:+ dquote
  +:+ ": ["
  +:+ dquote
  +:+ "/agents"
  +:+ dquote
  +:+ ", "
  +:+ dquote
  +:+ "/agents/{agent_id}/invoke"
  +:+ dquote
  +:+ "]
    }

@app.get("
  +:+ dquote
  +:+ "/agents"
  +:+ dquote
  +:+ ")
async def list_agents():
    "
  +:+ dquote
  +:+ dquote
  +:+ dquote
  +:+ "List all available agents."
  +:+ dquote
  +:+ dquote
  +:+ dquote
  +:+ "
    return {
        "
  +:+ dquote
  +:+ "agents"
  +:+ dquote
  +:+ ": [
            {
                "
  +:+ dquote
  +:+ "id"
  +:+ dquote
  +:+ ": agent_id,
                "
  +:+ dquote
  +:+ "name"
  +:+ dquote
  +:+ ": agent.name,
                "
  +:+ dquote
  +:+ "description"
  +:+ dquote
  +:+ ": agent.description
            }
            for agent_id, agent in agents.items()
        ]
    }

@app.post("
  +:+ dquote
  +:+ "/agents/{agent_id}/invoke"
  +:+ dquote
  +:+ ", response_model=AgentResponse)
async def invoke_agent(agent_id: str, request: AgentRequest):
    "
  +:+ dquote
  +:+ dquote
  +:+ dquote
  +:+ "Invoke a specific agent."
  +:+ dquote
  +:+ dquote
  +:+ dquote
  +:+ "
    if agent_id not in agents:
        raise HTTPException(status_code=404, detail=f"
  +:+ dquote
  +:+ "Agent {agent_id} not found"
  +:+ dquote
  +:+ ")
    
    agent = agents[agent_id]
    result = await agent.ainvoke(request.message)
    
    return AgentResponse(
        success=result["
  +:+ dquote
  +:+ "success"
  +:+ dquote
  +:+ "],
        response=result.get("
  +:+ dquote
  +:+ "response"
  +:+ dquote
  +:+ "),
        error=result.get("
  +:+ dquote
  +:+ "error"
  +:+ dquote
  +:+ "),
        agent_id=agent_id,
        metadata=result.get("
  +:+ dquote
  +:+ "metadata"
  +:+ dquote
  +:+ ", {})
    )

if __name__ == "
  +:+ dquote
  +:+ "__main__"
  +:+ dquote
  +:+ ":
    uvicorn.run(app, host="
  +:+ dquote
  +:+ "0.0.0.0"
  +:+ dquote
  +:+ ", port=8000)
".

Section files.
Context {Template : Type} `{!Yaml Agent, !Jinja2 Template, !Pathlib}.

Definition generate_agent_file (self : t) (fs : gmap string string)
    (spec_path output_dir : string) : result (string * gmap string string) :=
  text ← open_read fs spec_path;
  spec ← safe_load text;
  python_content ← render_agent self fs spec;
  match spec with
  | None => Raise (AttributeError "'NoneType' object has no attribute 'get'")
  | Some spec =>
      let agent_id := get (id spec) (stem spec_path) in
      let output_file := truediv output_dir (replace "-" "_" agent_id +:+ "_agent.py") in
      mret (output_file, open_write fs output_file python_content)
  end.

Definition generate_app_file (self : t) (fs : gmap string string)
    (specs : list Agent) (output_dir : string) : string * gmap string string :=
  let app_content := app_header in
  let app_content :=
    foldl (λ app_content spec,
      let agent_id := get (id spec) "unknown" in
      let class_name := replace "-" "_" agent_id in
      app_content +:+
        ("from " +:+ class_name +:+ "_agent import create_" +:+ class_name
           +:+ "_agent" +:+ newline)) app_content specs in
  let app_content := app_content +:+ app_registry in
  let app_content :=
    foldl (λ app_content spec,
      let agent_id := get (id spec) "unknown" in
      let class_name := replace "-" "_" agent_id in
      app_content +:+
        ("    agents[" +:+ dquote +:+ agent_id +:+ dquote +:+ "] = create_"
           +:+ class_name +:+ "_agent()" +:+ newline)) app_content specs in
  let app_content := app_content +:+ app_endpoints in
  let app_file := truediv output_dir "app.py" in
  (app_file, open_write fs app_file app_content).

End files.
End LangGraphAdapter.

(** ** [scripts/validator.py]: all the files of two directories *)

(** [Path.rglob(pattern)]: the files under a directory that match a pattern, with
    the files [fs] on disk. *)
Class Rglob : Type := {
  rglob : gmap string string → string → string → list string
}.

(** The dictionary [validate_all_files] returns. *)
Module Results.

Record Invalid : Type := { file : string; errors : list string }.

Record Group : Type := { valid : list string; invalid : list Invalid }.

Record Summary : Type := { total_files : nat; valid_files : nat; invalid_files : nat }.

Record t : Type := { agents : Group; recipes : Group; summary : Summary }.

End Results.

Section validate_all_files.
Context {ASchema RSchema Doc : Type}
  `{!Yaml Doc, !JsonSchema ASchema Doc, !Yaml Recipe, !JsonSchema RSchema Recipe,
    !SetOrder, !Pathlib, !Rglob}.

(** One of the two loops [for yaml_file in ...rglob("*.yaml")] of
    [validate_all_files]: they differ in the validator and in the group of the
    results they fill, and share the summary. *)
Fixpoint validate_each (validate_file : string → result (bool * list string))
    (yaml_files : list string) (group : Results.Group) (summary : Results.Summary)
  : result (Results.Group * Results.Summary) :=
  match yaml_files with
  | [] => mret (group, summary)
  | yaml_file :: rest =>
      if str_in "_templates" yaml_file then validate_each validate_file rest group summary
      else
        let summary :=
          {| Results.total_files := Results.total_files summary + 1;
             Results.valid_files := Results.valid_files summary;
             Results.invalid_files := Results.invalid_files summary |} in
        '(is_valid, errors) ← validate_file yaml_file;
        if is_valid : bool then
          validate_each validate_file rest
            {| Results.valid := Results.valid group ++ [yaml_file];
               Results.invalid := Results.invalid group |}
            {| Results.total_files := Results.total_files summary;
               Results.valid_files := Results.valid_files summary + 1;
               Results.invalid_files := Results.invalid_files summary |}
        else
          validate_each validate_file rest
            {| Results.valid := Results.valid group;
               Results.invalid :=
                 Results.invalid group
                   ++ [{| Results.file := yaml_file; Results.errors := errors |}] |}
            {| Results.total_files := Results.total_files summary;
               Results.valid_files := Results.valid_files summary;
               Results.invalid_files := Results.invalid_files summary + 1 |}
  end.

Definition validate_all_files (fs : gmap string string)
    (agents_dir recipes_dir schemas_dir : string) : result Results.t :=
  agent_validator ←
    AgentValidator.__init__ (Schema := ASchema) fs (truediv schemas_dir "agent-spec-v1.json");
  recipe_validator ←
    RecipeValidator.__init__ (Schema := RSchema) fs (truediv schemas_dir "recipe-spec-v1.json");
  let empty := {| Results.valid := []; Results.invalid := [] |} in
  let summary :=
    {| Results.total_files := 0; Results.valid_files := 0; Results.invalid_files := 0 |} in
  '(agents, summary) ←
    validate_each (AgentValidator.validate_file (Doc := Doc) agent_validator fs)
      (rglob fs agents_dir "*.yaml") empty summary;
  '(recipes, summary) ←
    validate_each (RecipeValidator.validate_file recipe_validator fs)
      (rglob fs recipes_dir "*.yaml") empty summary;
  mret {| Results.agents := agents; Results.recipes := recipes;
          Results.summary := summary |}.

End validate_all_files.

(** ** Stand-ins for the libraries

    Small instances of the interfaces, on which the embedded code runs on
    concrete inputs. *)

Module Sample.

(** Sets iterated in the order of [elements]. *)
#[local] Instance set_order : SetOrder :=
  {| set_iter := λ A _ _, elements;
     set_iter_perm := λ A _ _ X, reflexivity (elements X) |}.

(** The text before the last [.] of the text after the last [/]. *)
Fixpoint after_last_slash (s : string) : string :=
  match s with
  | EmptyString => EmptyString
  | String c rest =>
      if String.prefix "/" (String.rev (String c rest)) then EmptyString
      else if existsb (Ascii.eqb "/") (String.list_ascii_of_string rest)
      then after_last_slash rest
      else if Ascii.eqb c "/" then rest else String c rest
  end.

Fixpoint before_last_dot (s : string) : string :=
  match s with
  | EmptyString => EmptyString
  | String c rest =>
      if existsb (Ascii.eqb ".") (String.list_ascii_of_string rest)
      then String c (before_last_dot rest)
      else if Ascii.eqb c "." then EmptyString else String c rest
  end.

#[local] Instance pathlib : Pathlib :=
  {| truediv := λ dir name, dir +:+ "/" +:+ name;
     stem := λ path, before_last_dot (after_last_slash path) |}.

(** A loader that knows the documents of a few texts. *)
Definition yaml_of_table {Doc : Type} (table : list (string * option Doc)) : Yaml Doc :=
  {| safe_load := λ text,
       match list_to_map (M := gmap string (option Doc)) table !! text with
       | Some doc => Ok doc
       | None => Raise (YAMLError "while parsing a flow sequence")
       end |}.

(** A recipe schema that requires the key [id] of a mapping. *)
#[local] Instance recipe_schema : JsonSchema unit Recipe :=
  {| json_load := λ _, Ok ();
     iter_errors := λ _ data,
       match data with
       | None => Ok [{| absolute_path := []; message := "None is not of type 'object'" |}]
       | Some recipe =>
           if contains (recipe_id recipe) then Ok []
           else Ok [{| absolute_path := []; message := "'id' is a required property" |}]
       end |}.

(** An agent schema that requires the key [name] and a known [model.provider]. *)
#[local] Instance agent_schema : JsonSchema unit Agent :=
  {| json_load := λ _, Ok ();
     iter_errors := λ _ data,
       match data with
       | None => Ok [{| absolute_path := []; message := "None is not of type 'object'" |}]
       | Some spec =>
           Ok ((if contains (name spec) then []
                else [{| absolute_path := []; message := "'name' is a required property" |}])
               ++
               match provider (get (model spec) empty_model) with
               | Some p =>
                   if decide (p ∈ ["anthropic"; "openai"]) then []
                   else [{| absolute_path := [Key "model"; Key "provider"];
                            message := "'" +:+ p +:+ "' is not one of ['anthropic', 'openai']" |}]
               | None => []
               end)
       end |}.

(** A template engine whose templates are their source texts and whose
    rendering appends the agent's name to the template's text. *)
#[local] Instance jinja2 : Jinja2 string :=
  {| from_string := λ env source, Ok source;
     render := λ template spec, Ok (template +:+ get (spec ≫= Spec.name) "") |}.

(** A compact, unquoted rendering of a JSON value. *)
Fixpoint dumps (j : json) : string :=
  match j with
  | JNull => "null"
  | JString s => s
  | JArray items => "[" +:+ join ", " (dumps <$> items) +:+ "]"
  | JObject members =>
      "{" +:+ join ", " ((λ kv, kv.1 +:+ ": " +:+ dumps kv.2) <$> members) +:+ "}"
  end.

#[local] Instance json_dumper : JsonDump := {| json_dump := dumps |}.

(** Agents: the one of the adapters' tests, an early draft with neither [id]
    nor [model], one on openai, and one whose provider no schema knows. *)
Definition test_agent : Agent :=
  {| id := Some "test-agent";
     name := Some "Test Agent";
     summary := Some "A test agent for adapter testing";
     role := Some "You are a test agent.";
     model := Some {| provider := Some "anthropic"; family := Some "claude";
                      tier := Some "sonnet" |};
     tools := Some [{| tool_id := Some "test_tool"; tool_type := Some "builtin";
                       description := Some "A test tool" |}];
     ownership := Some {| owner := Some "test@example.com" |};
     version := Some "1.0.0" |}.

Definition draft_agent : Agent :=
  {| id := None; name := Some "Draft"; summary := None; role := None; model := None;
     tools := None; ownership := None; version := None |}.

Definition openai_agent : Agent :=
  {| id := Some "planner"; name := Some "Planner"; summary := None; role := None;
     model := Some {| provider := Some "openai"; family := None; tier := Some "gpt-4o" |};
     tools := None; ownership := None; version := None |}.

Definition unknown_provider_agent : Agent :=
  {| id := Some "odd"; name := None; summary := None; role := None;
     model := Some {| provider := Some "xyz"; family := None; tier := None |};
     tools := None; ownership := None; version := None |}.

(** Tools of the three kinds of type. *)
Definition file_search_tool : Tool :=
  {| tool_id := Some "file_search"; tool_type := Some "builtin"; description := None |}.
Definition fetch_tool : Tool :=
  {| tool_id := Some "fetch"; tool_type := Some "http";
     description := Some "Fetch a URL" |}.
Definition mcp_tool : Tool :=
  {| tool_id := Some "search_docs"; tool_type := Some "mcp";
     description := Some "Search the documentation" |}.

(** A recipe with two stages named [build], a stage with neither execution mode
    and an unnamed stage with both. *)
Definition build_twice : Recipe :=
  {| recipe_id := Some "release";
     recipe_name := Some "Release";
     recipe_summary := Some "Build and test";
     graph := Some
       [{| stage := Some (Str "build"); parallel := None;
           sequence := Some [{| agent := Some "agent1" |}] |};
        {| stage := Some (Str "build"); parallel := None;
           sequence := Some [{| agent := Some "agent2" |}] |};
        {| stage := Some (Str "test"); parallel := None; sequence := None |};
        {| stage := None; parallel := Some []; sequence := Some [] |}];
     recipe_version := Some "1.0.0" |}.

(** A recipe with two stages named [1] and a stage named [2], each with one
    execution mode. *)
Definition numbered : Recipe :=
  {| recipe_id := Some "numbered";
     recipe_name := Some "Numbered";
     recipe_summary := Some "Stages named by numbers";
     graph := Some
       [{| stage := Some (Int 1); parallel := None;
           sequence := Some [{| agent := Some "agent1" |}] |};
        {| stage := Some (Int 1); parallel := None;
           sequence := Some [{| agent := Some "agent2" |}] |};
        {| stage := Some (Int 2); parallel := Some [{| agent := Some "agent3" |}];
           sequence := None |}];
     recipe_version := Some "1.0.0" |}.

(** The files on disk, the text of a YAML file standing for a document. *)
Definition files : gmap string string :=
  list_to_map
    [("agents/test-agent.yaml", "test-agent");
     ("agents/draft.yaml", "draft");
     ("agents/code-review.yaml", "draft");
     ("agents/odd.yaml", "odd");
     ("agents/empty.yaml", "");
     ("recipes/release.yaml", "release");
     ("recipes/numbered.yaml", "numbered");
     ("schemas/agent-spec-v1.json", "{}");
     ("schemas/recipe-spec-v1.json", "{}");
     ("templates/claude_subagent.md.jinja", "# ");
     ("templates/langgraph_agent.py.jinja", "# agent ")].

#[local] Instance agent_yaml : Yaml Agent :=
  yaml_of_table
    [("test-agent", Some test_agent); ("draft", Some draft_agent);
     ("odd", Some unknown_provider_agent); ("", None)].

#[local] Instance recipe_yaml : Yaml Recipe :=
  yaml_of_table [("release", Some build_twice); ("numbered", Some numbered); ("", None)].

Definition agent_validator : AgentValidator.t :=
  {| AgentValidator.schema_path := "schemas/agent-spec-v1.json";
     AgentValidator.schema := () |}.

Definition recipe_validator : RecipeValidator.t :=
  {| RecipeValidator.schema_path := "schemas/recipe-spec-v1.json";
     RecipeValidator.schema := () |}.

(** The files a scan of a directory finds: those under it whose name ends in
    [.yaml], in the order of their paths in the map. *)
#[local] Instance rglob_files : Rglob :=
  {| rglob := λ fs dir pattern,
       filter (λ path, String.prefix (dir +:+ "/") path
                       && String.prefix (String.rev ".yaml") (String.rev path))
         (map_to_list fs).*1 |}.

(** A repository: agents, among them a template, an unparsable file and an
    empty one; one recipe; the two schemas. *)
Definition repository : gmap string string :=
  list_to_map
    [("agents/eng/test-agent.yaml", "test-agent");
     ("agents/eng/draft.yaml", "draft");
     ("agents/ops/odd.yaml", "odd");
     ("agents/ops/broken.yaml", "[unclosed");
     ("agents/_templates/agent-template.yaml", "test-agent");
     ("agents/README.md", "agents");
     ("recipes/release.yaml", "release");
     ("recipes/empty.yaml", "");
     ("schemas/agent-spec-v1.json", "{}");
     ("schemas/recipe-spec-v1.json", "{}");
     ("templates/claude_subagent.md.jinja", "# ");
     ("templates/langgraph_agent.py.jinja", "# agent ")].

(** A recipe with nothing to report, and a loader that knows it. *)
Definition pipeline : Recipe :=
  {| recipe_id := Some "pipeline";
     recipe_name := Some "Pipeline";
     recipe_summary := Some "Plan, then build and test";
     graph := Some
       [{| stage := Some (Str "plan"); parallel := None;
           sequence := Some [{| agent := Some "planner" |}] |};
        {| stage := Some (Str "check");
           parallel := Some [{| agent := Some "builder" |}; {| agent := Some "tester" |}];
           sequence := None |}];
     recipe_version := Some "1.0.0" |}.

Definition recipe_table : Yaml Recipe :=
  yaml_of_table [("release", Some build_twice); ("pipeline", Some pipeline); ("", None)].

End Sample.

(** * Properties *)

(** ** The order on strings and [sorted] *)

Lemma ascii_compare_refl (a : ascii) : Ascii.compare a a = Eq.
Proof. unfold Ascii.compare. apply N.compare_refl. Qed.

Lemma ascii_compare_lt_trans (a b c : ascii) :
  Ascii.compare a b = Lt → Ascii.compare b c = Lt → Ascii.compare a c = Lt.
Proof.
  unfold Ascii.compare. rewrite !N.compare_lt_iff. lia.
Qed.

Lemma string_compare_trans (s1 s2 s3 : string) :
  String.compare s1 s2 ≠ Gt → String.compare s2 s3 ≠ Gt → String.compare s1 s3 ≠ Gt.
Proof.
  revert s2 s3.
  induction s1 as [|a s1 IH]; intros [|b s2] [|c s3]; simpl; try done.
  destruct (Ascii.compare a b) eqn:Hab; [| |done];
    destruct (Ascii.compare b c) eqn:Hbc; try done.
  - apply Ascii.compare_eq_iff in Hab, Hbc. subst.
    rewrite ascii_compare_refl. apply IH.
  - apply Ascii.compare_eq_iff in Hab. subst. by rewrite Hbc.
  - apply Ascii.compare_eq_iff in Hbc. subst. by rewrite Hab.
  - by rewrite (ascii_compare_lt_trans a b c).
Qed.

Lemma str_le_compare (s1 s2 : string) : str_le s1 s2 ↔ String.compare s1 s2 ≠ Gt.
Proof. unfold str_le, String.leb. by destruct (String.compare s1 s2). Qed.

#[global] Instance str_le_trans : Transitive str_le.
Proof. intros s1 s2 s3. rewrite !str_le_compare. apply string_compare_trans. Qed.

#[global] Instance str_le_total : Total str_le.
Proof. intros s1 s2. apply String.leb_total. Qed.

#[global] Instance str_le_antisymm : AntiSymm (=) str_le.
Proof. intros s1 s2. apply String.leb_antisym. Qed.

Lemma sorted_Sorted (items : list string) : Sorted str_le (sorted items).
Proof. apply Sorted_merge_sort, _. Qed.

Lemma sorted_Permutation (items : list string) : sorted items ≡ₚ items.
Proof. apply merge_sort_Permutation. Qed.

(** [sorted] does not depend on the order its argument comes in. *)
Lemma sorted_order_irrelevant (l1 l2 : list string) : l1 ≡ₚ l2 → sorted l1 = sorted l2.
Proof.
  intros Hperm. apply (Sorted_unique str_le); try apply sorted_Sorted.
  by rewrite !sorted_Permutation.
Qed.

(** ** Iterating a set *)

Section set_iter.
Context `{!SetOrder} {A : Type} `{Countable A}.

Lemma set_iter_NoDup (X : gset A) : NoDup (set_iter X).
Proof. rewrite set_iter_perm. apply NoDup_elements. Qed.

Lemma elem_of_set_iter (X : gset A) (x : A) : x ∈ set_iter X ↔ x ∈ X.
Proof. rewrite set_iter_perm. apply elem_of_elements. Qed.

Lemma set_iter_nil (X : gset A) : set_iter X = [] ↔ X = ∅.
Proof.
  split.
  - intros Hnil. apply set_eq. intros x. rewrite <- elem_of_set_iter, Hnil. set_solver.
  - intros ->. apply Permutation_nil_r. by rewrite set_iter_perm, elements_empty.
Qed.

End set_iter.
(** ** Strings *)

Lemma startswith_append (p s : string) : startswith p (p +:+ s) = true.
Proof.
  unfold startswith. induction p as [|c p IH]; simpl; [by destruct s|].
  destruct (Ascii.ascii_dec c c) as [_|Hne]; [exact IH | by destruct Hne].
Qed.

Lemma foldl_snoc_fmap {A B : Type} (f : A → B) (l : list A) (acc : list B) :
  foldl (λ acc x, acc ++ [f x]) acc l = acc ++ (f <$> l).
Proof.
  revert acc. induction l as [|x l IH]; intros acc; simpl.
  - by rewrite app_nil_r.
  - by rewrite IH, <- app_assoc.
Qed.

Lemma count_elem_of {A : Type} `{EqDecision A} (x : A) (l : list A) :
  0 < count x l → x ∈ l.
Proof.
  unfold count. intros Hpos.
  destruct (filter (λ y, y = x) l) as [|y l'] eqn:Hfilter; simpl in Hpos; [lia|].
  assert (y ∈ filter (λ y, y = x) l) as Hy by (rewrite Hfilter; left).
  apply list_elem_of_filter in Hy as [-> ?]. done.
Qed.

Lemma count_cons {A : Type} `{EqDecision A} (x y : A) (l : list A) :
  count x (y :: l) = (if decide (y = x) then 1 else 0) + count x l.
Proof. unfold count. rewrite filter_cons. by destruct (decide (y = x)). Qed.

Lemma count_pos_of_elem_of {A : Type} `{EqDecision A} (x : A) (l : list A) :
  x ∈ l → 0 < count x l.
Proof.
  induction 1 as [x l | x y l _ IH]; rewrite count_cons.
  - rewrite decide_True by done. lia.
  - lia.
Qed.

Lemma NoDup_count {A : Type} `{EqDecision A} (l : list A) :
  NoDup l ↔ ∀ x, count x l ≤ 1.
Proof.
  induction l as [|y l IH].
  - split; [intros _ x; unfold count; simpl; lia | constructor].
  - rewrite NoDup_cons, IH. setoid_rewrite count_cons. split.
    + intros [Hy Hl] x. destruct (decide (y = x)) as [<-|]; [|apply Hl].
      destruct (count y l) as [|n] eqn:Hcount; [lia|].
      destruct Hy. apply count_elem_of. lia.
    + intros Hcount. split.
      * intros Hy%count_pos_of_elem_of. specialize (Hcount y).
        rewrite decide_True in Hcount by done. lia.
      * intros x. specialize (Hcount x). lia.
Qed.

(** [join] is the standard library's [String.concat]. *)
Lemma join_concat (sep : string) (items : list string) :
  join sep items = String.concat sep items.
Proof.
  induction items as [|x [|y items] IH]; [done..|].
  change (x +:+ sep +:+ join sep (y :: items) = x +:+ sep +:+ String.concat sep (y :: items)).
  by rewrite IH.
Qed.

(** ** Joining scalars *)

Lemma str_items_strs (i : nat) (strs : list string) :
  str_items i (Str <$> strs) = Ok strs.
Proof.
  revert i. induction strs as [|text strs IH]; intros i; [done|].
  cbn [fmap list_fmap str_items]. by rewrite IH.
Qed.

(** Going through the items returns only for items that are all [str], and
    raises nothing but [TypeError]. *)
Lemma str_items_outcome (i : nat) (items : list scalar) :
  (∃ strs, items = Str <$> strs ∧ str_items i items = Ok strs) ∨
  (∃ v msg, v ∈ items ∧ (∀ text, v ≠ Str text) ∧ str_items i items = Raise (TypeError msg)).
Proof.
  revert i. induction items as [|v items IH]; intros i.
  - left. by exists [].
  - destruct v as [text|n|].
    + destruct (IH (S i)) as [(strs & -> & Hrun)|(v & msg & Hv & Hother & Hrun)].
      * left. exists (text :: strs). split; [done|]. cbn [str_items]. by rewrite Hrun.
      * right. exists v, msg. split; [by right|]. split; [done|].
        cbn [str_items]. by rewrite Hrun.
    + right. eexists (Int n), _. split; [left|]. split; [done|]. reflexivity.
    + right. eexists Null, _. split; [left|]. split; [done|]. reflexivity.
Qed.

Lemma join_scalars_outcome (sep : string) (items : list scalar) :
  (∃ strs, items = Str <$> strs ∧ join_scalars sep items = Ok (join sep strs)) ∨
  (∃ v msg, v ∈ items ∧ (∀ text, v ≠ Str text) ∧
     join_scalars sep items = Raise (TypeError msg)).
Proof.
  unfold join_scalars.
  destruct (str_items_outcome 0 items) as [(strs & -> & Hrun)|(v & msg & Hv & Hother & Hrun)].
  - left. exists strs. by rewrite Hrun.
  - right. exists v, msg. by rewrite Hrun.
Qed.

(** ** Schema validation: [AgentValidator] *)

Section agent_validator.
Context {Schema Doc : Type} `{!Yaml Doc, !JsonSchema Schema Doc}.
Implicit Types (self : AgentValidator.t (Schema := Schema)).

Lemma agent_collect_errors_fmap (found : list ValidationError) :
  AgentValidator.collect_errors found = AgentValidator._format_validation_error <$> found.
Proof. unfold AgentValidator.collect_errors. by rewrite foldl_snoc_fmap. Qed.

(** A validator cannot be built on a schema file that does not exist: the
    constructor has no handler and the exception leaves the call. *)
Lemma agent_validator_init_missing_schema (fs : gmap string string) (schema_path : string) :
  fs !! schema_path = None →
  ∃ msg, AgentValidator.__init__ (Schema := Schema) fs schema_path = Raise (FileNotFoundError msg).
Proof.
  intros Hmissing. unfold AgentValidator.__init__, open_read. rewrite Hmissing. by eexists.
Qed.

(** C3: when the schema validator runs to its end on [data], [validate_data]
    returns one formatted message per violation it yielded, in the order they
    were yielded, and the verdict is [true] exactly when there was none; in
    particular a conforming specification gives [(true, [])]. *)
Theorem validate_data_reports_every_violation self (data : Doc)
    (found : list ValidationError) :
  iter_errors (AgentValidator.schema self) (Some data) = Ok found →
  (found = [] → AgentValidator.validate_data self data = Ok (true, [])) ∧
  ∃ errors,
    AgentValidator.validate_data self data = Ok (bool_decide (found = []), errors) ∧
    length errors = length found ∧
    ∀ k error, found !! k = Some error →
      errors !! k = Some (AgentValidator._format_validation_error error).
Proof.
  intros Hfound.
  assert (AgentValidator.validate_data self data
          = Ok (bool_decide (found = []),
                AgentValidator._format_validation_error <$> found)) as Hrun.
  { unfold AgentValidator.validate_data. rewrite Hfound. simpl.
    rewrite agent_collect_errors_fmap, length_fmap.
    do 2 f_equal. apply bool_decide_ext. by destruct found. }
  split.
  - intros ->. by rewrite Hrun.
  - eexists. split; [exact Hrun|]. split; [by rewrite length_fmap|].
    intros k error Hk. by rewrite list_lookup_fmap, Hk.
Qed.

(** C7, as the code has it: a violation away from the root is formatted as
    [Field '<path>': <message>], the path being the dot-joined elements of
    [absolute_path]. *)
Theorem format_validation_error_with_path (error : ValidationError) :
  absolute_path error ≠ [] →
  AgentValidator._format_validation_error error
    = "Field '" +:+ join "." (str_of_path_elem <$> absolute_path error)
        +:+ "': " +:+ message error ∧
  RecipeValidator._format_validation_error error
    = AgentValidator._format_validation_error error.
Proof.
  intros Hpath.
  unfold AgentValidator._format_validation_error, RecipeValidator._format_validation_error.
  by destruct (absolute_path error).
Qed.

(** A violation at the root is reported by its message alone. *)
Lemma format_validation_error_root (error : ValidationError) :
  absolute_path error = [] →
  AgentValidator._format_validation_error error = message error.
Proof. unfold AgentValidator._format_validation_error. by intros ->. Qed.

End agent_validator.

(** ** Semantic validation: [RecipeValidator] *)

Section recipe_validator.
Context {Schema : Type} `{!Yaml Recipe, !JsonSchema Schema Recipe, !SetOrder}.
Implicit Types (self : RecipeValidator.t (Schema := Schema)).
Import RecipeValidator.

Lemma recipe_collect_errors_fmap (found : list ValidationError) :
  collect_errors found = _format_validation_error <$> found.
Proof. unfold collect_errors. by rewrite foldl_snoc_fmap. Qed.

(** The stage loop only appends to the errors it is given. *)
Lemma check_stages_app (i : nat) (graph : list Stage) (errors : list string) :
  check_stages i graph errors = errors ++ check_stages i graph [].
Proof.
  revert i errors. induction graph as [|s rest IH]; intros i errors; simpl.
  - by rewrite app_nil_r.
  - destruct (contains (parallel s)), (contains (sequence s)); simpl.
    + rewrite IH. symmetry. rewrite IH. by rewrite app_assoc.
    + apply IH.
    + apply IH.
    + rewrite IH. symmetry. rewrite IH. by rewrite app_assoc.
Qed.

(** None of the messages of the stage loop is a duplicate-name message. *)
Lemma check_stages_no_duplicate_message (i : nat) (graph : list Stage) :
  filter (λ e, startswith "Duplicate stage names found: " e) (check_stages i graph []) = [].
Proof.
  revert i. induction graph as [|s rest IH]; intros i; simpl; [done|].
  destruct (contains (parallel s)), (contains (sequence s)); simpl; try apply IH.
  all: rewrite check_stages_app, filter_app, IH; done.
Qed.


Lemma elem_of_duplicate_stages (names : list scalar) (n : scalar) :
  n ∈ duplicate_stages names ↔ 1 < count n names.
Proof.
  unfold duplicate_stages. rewrite elem_of_list_to_set, list_elem_of_filter.
  split; [by intros [? _]|]. intros Hcount. split; [done|].
  apply count_elem_of. lia.
Qed.

(** What semantic validation does for a mapping, in one equation. *)
Lemma validate_recipe_semantics_unfold (data : Recipe) :
  let graph := get (graph data) [] in
  let duplicates := duplicate_stages (stage_names graph) in
  _validate_recipe_semantics (Some data)
  = if decide (duplicates = ∅) then Ok (check_stages 0 graph [])
    else
      joined ← join_scalars ", " (set_iter duplicates);
      Ok (["Duplicate stage names found: " +:+ joined] ++ check_stages 0 graph []).
Proof.
  simpl. unfold _validate_recipe_semantics.
  destruct (decide _); [done|].
  destruct (join_scalars ", " _) as [joined|e]; [|done].
  simpl. by rewrite check_stages_app.
Qed.

(** Semantic validation returns when the names that occur more than once are
    all [str]: the messages are the duplicate-name message, if any name does,
    and those of the stage loop. *)
Lemma validate_recipe_semantics_returns (data : Recipe) :
  let graph := get (graph data) [] in
  let duplicates := duplicate_stages (stage_names graph) in
  (∀ name, 1 < count name (stage_names graph) → ∃ text, name = Str text) →
  ∃ strs,
    set_iter duplicates = Str <$> strs ∧
    _validate_recipe_semantics (Some data)
    = Ok ((if decide (duplicates = ∅) then []
           else ["Duplicate stage names found: " +:+ join ", " strs])
          ++ check_stages 0 graph []).
Proof.
  intros graph duplicates Hstr.
  pose proof (validate_recipe_semantics_unfold data) as Hrun. cbv zeta in Hrun.
  fold graph in Hrun. fold duplicates in Hrun. rewrite Hrun.
  destruct (join_scalars_outcome ", " (set_iter duplicates))
    as [(strs & Hstrs & Hjoin)|(v & msg & Hv & Hother & _)].
  - exists strs. split; [done|]. rewrite Hjoin. by destruct (decide _).
  - apply elem_of_set_iter, elem_of_duplicate_stages, Hstr in Hv as [text ->].
    by destruct (Hother text).
Qed.

(** A run of [validate_file] in which nothing raises. *)
Lemma recipe_validate_file_returns self (fs : gmap string string) (yaml_path text : string)
    (data : option Recipe) (found : list ValidationError) (errors : list string) :
  fs !! yaml_path = Some text →
  safe_load text = Ok data →
  iter_errors (schema self) data = Ok found →
  _validate_recipe_semantics data = Ok errors →
  validate_file self fs yaml_path
  = Ok (bool_decide (length (collect_errors found ++ errors) = 0),
        collect_errors found ++ errors).
Proof.
  intros Hfile Hload Hfound Hsemantics.
  unfold validate_file, open_read. rewrite Hfile. simpl.
  rewrite Hload. simpl. rewrite Hfound. simpl. by rewrite Hsemantics.
Qed.

(** A run of [validate_file] in which semantic validation raises. *)
Lemma recipe_validate_file_raised self (fs : gmap string string) (yaml_path text : string)
    (data : option Recipe) (found : list ValidationError) (msg : string) :
  fs !! yaml_path = Some text →
  safe_load text = Ok data →
  iter_errors (schema self) data = Ok found →
  _validate_recipe_semantics data = Raise (TypeError msg) →
  validate_file self fs yaml_path = Ok (false, ["Validation error: " +:+ msg]).
Proof.
  intros Hfile Hload Hfound Hsemantics.
  unfold validate_file, open_read. rewrite Hfile. simpl.
  rewrite Hload. simpl. rewrite Hfound. simpl. by rewrite Hsemantics.
Qed.

Lemma recipe_validate_file_rejects self (fs : gmap string string) (yaml_path text : string)
    (data : option Recipe) (found : list ValidationError) (e : exn) :
  fs !! yaml_path = Some text →
  safe_load text = Ok data →
  iter_errors (schema self) data = Ok found →
  _validate_recipe_semantics data = Raise e →
  ∃ msg, validate_file self fs yaml_path = Ok (false, [msg]).
Proof.
  intros Hfile Hload Hfound Hsemantics.
  unfold validate_file, open_read. rewrite Hfile. simpl.
  rewrite Hload. simpl. rewrite Hfound. simpl. rewrite Hsemantics.
  destruct e; by eexists.
Qed.


(** An empty document makes semantic validation raise, and [validate_file]
    turns the exception into its verdict. *)
Lemma validate_recipe_semantics_none :
  ∃ msg, _validate_recipe_semantics None = Raise (AttributeError msg).
Proof. by eexists. Qed.

End recipe_validator.

(** ** A file that does not exist *)

Section missing_file.
Context {ASchema RSchema Doc : Type}
  `{!Yaml Doc, !JsonSchema ASchema Doc, !Yaml Recipe, !JsonSchema RSchema Recipe, !SetOrder}.

(** C5, as the code has it: [validate_file] on a path with no file does not
    raise; its [FileNotFoundError] handler returns the verdict
    [(false, ["File not found: <path>"])], of the shape of every other
    failure. *)
Theorem validate_file_missing_file_verdict
    (agents : AgentValidator.t (Schema := ASchema))
    (recipes : RecipeValidator.t (Schema := RSchema))
    (fs : gmap string string) (yaml_path : string) :
  fs !! yaml_path = None →
  AgentValidator.validate_file agents fs yaml_path
    = Ok (false, ["File not found: " +:+ yaml_path]) ∧
  RecipeValidator.validate_file recipes fs yaml_path
    = Ok (false, ["File not found: " +:+ yaml_path]).
Proof.
  intros Hmissing.
  unfold AgentValidator.validate_file, RecipeValidator.validate_file, open_read.
  by rewrite Hmissing.
Qed.

End missing_file.

(** ** Rendering: [AgentRenderer] *)

Section agent_renderer.
Context {Template : Type} `{!Yaml Agent, !Jinja2 Template, !Pathlib, !JsonDump}.
Implicit Types (self : AgentRenderer.t).
Import AgentRenderer.

(** The tool loop only appends to the list it is given. *)
Lemma map_tools_to_openai_app (tools1 tools2 : list Tool) :
  _map_tools_to_openai (tools1 ++ tools2)
  = _map_tools_to_openai tools1 ++ _map_tools_to_openai tools2.
Proof.
  unfold _map_tools_to_openai. rewrite foldl_app.
  generalize (foldl
    (λ (openai_tools : list json) (tool : Tool),
       if decide (tool_type tool = Some "builtin")
       then if decide (tool_id tool ∈ [Some "code_interpreter"; Some "file_search"])
            then openai_tools ++ [JObject [("type", json_of_get (tool_id tool))]]
            else openai_tools
       else if decide (tool_type tool = Some "http")
            then openai_tools ++
                 [JObject
                    [("type", JString "function");
                     ("function",
                      JObject
                        [("name", json_of_get (tool_id tool));
                         ("description", JString (get (description tool) ""));
                         ("parameters",
                          JObject
                            [("type", JString "object");
                             ("properties", JObject []);
                             ("required", JArray [])])])]]
            else openai_tools) [] tools1) as done_so_far.
  induction tools2 as [|tool tools2 IH] using rev_ind; intros.
  - by rewrite app_nil_r.
  - rewrite !foldl_app. simpl. rewrite IH.
    repeat case_decide; by rewrite ?app_assoc.
Qed.

(** C4, as the code has it: a builtin tool whose id is [code_interpreter] or
    [file_search] becomes the tag [{"type": id}]; a tool of type [http] becomes
    a function descriptor carrying its id and its description (the empty string
    when it has none) with an empty parameter schema; every other tool, a
    builtin one with another id as well as one of any other type, is dropped.
    The tools before and after are mapped as they would be alone. *)
Theorem map_tools_to_openai_by_type (before after : list Tool) (tool : Tool) :
  let mapped := _map_tools_to_openai (before ++ tool :: after) in
  let around produced :=
    _map_tools_to_openai before ++ produced ++ _map_tools_to_openai after in
  (∀ tid, tool_type tool = Some "builtin" → tool_id tool = Some tid →
     tid = "code_interpreter" ∨ tid = "file_search" →
     mapped = around [JObject [("type", JString tid)]]) ∧
  (tool_type tool = Some "builtin" →
     tool_id tool ≠ Some "code_interpreter" → tool_id tool ≠ Some "file_search" →
     mapped = around []) ∧
  (tool_type tool = Some "http" →
     mapped = around
       [JObject
          [("type", JString "function");
           ("function",
            JObject
              [("name", json_of_get (tool_id tool));
               ("description",
                JString match description tool with Some text => text | None => "" end);
               ("parameters",
                JObject
                  [("type", JString "object");
                   ("properties", JObject []);
                   ("required", JArray [])])])]]) ∧
  (tool_type tool ≠ Some "builtin" → tool_type tool ≠ Some "http" →
     mapped = around []).
Proof.
  simpl. rewrite (map_tools_to_openai_app before (tool :: after)).
  change (tool :: after) with ([tool] ++ after).
  rewrite (map_tools_to_openai_app [tool] after).
  generalize (_map_tools_to_openai before) (_map_tools_to_openai after).
  intros mapped_before mapped_after.
  unfold _map_tools_to_openai. simpl.
  repeat split.
  - intros tid Htype Hid Hallowed. rewrite Htype, Hid.
    rewrite decide_True by done.
    rewrite decide_True; [done|].
    rewrite !elem_of_cons. destruct Hallowed as [-> | ->]; auto.
  - intros Htype Hne1 Hne2. rewrite Htype. rewrite decide_True by done.
    rewrite decide_False; [done|].
    rewrite !elem_of_cons, elem_of_nil. tauto.
  - intros Htype. rewrite Htype. rewrite decide_False by done.
    rewrite decide_True by done. by destruct (description tool).
  - intros Hne1 Hne2. by rewrite !decide_False.
Qed.





End agent_renderer.

(** ** The adapters *)

Section render_agent.
Context {Template : Type} `{!Jinja2 Template, !Pathlib}.




End render_agent.

Section requirements.
Context `{!Pathlib, !SetOrder}.
Implicit Types (self : LangGraphAdapter.t).
Import LangGraphAdapter.

Lemma string_append_assoc (s1 s2 s3 : string) : (s1 +:+ s2) +:+ s3 = s1 +:+ s2 +:+ s3.
Proof.
  induction s1 as [|c s1 IH]; [done|].
  change (String c ((s1 +:+ s2) +:+ s3) = String c (s1 +:+ s2 +:+ s3)).
  by rewrite IH.
Qed.

Lemma string_append_nil_r (s : string) : s +:+ "" = s.
Proof.
  induction s as [|c s IH]; [done|].
  change (String c (s +:+ "") = String c s). by rewrite IH.
Qed.

(** Writing line after line gives each line followed by a newline, in order. *)
Lemma written_text (lines : list string) (written : string) :
  foldl (λ f req, f +:+ req +:+ newline) written lines
  = written +:+ foldr (λ req rest, req +:+ newline +:+ rest) "" lines.
Proof.
  revert written. induction lines as [|req lines IH]; intros written; cbn [foldl foldr].
  - by rewrite string_append_nil_r.
  - by rewrite IH, !string_append_assoc.
Qed.

(** The requirements after the loop: those before it, and one entry for each of
    the two providers that some specification has, the provider of a
    specification without one being [anthropic]. *)
Lemma elem_of_add_model_requirements (requirements : gset string) (specs : list Agent)
    (r : string) :
  r ∈ add_model_requirements requirements specs ↔
    r ∈ requirements ∨
    (r = "langchain-anthropic>=0.1.0" ∧
     ∃ spec, spec ∈ specs ∧
       get (provider (get (model spec) empty_model)) "anthropic" = "anthropic") ∨
    (r = "langchain-openai>=0.1.0" ∧
     ∃ spec, spec ∈ specs ∧
       get (provider (get (model spec) empty_model)) "anthropic" = "openai").
Proof.
  unfold add_model_requirements. revert requirements.
  induction specs as [|spec specs IH]; intros requirements; simpl.
  - split; [auto|]. intros [?|[[_ [? [[]%elem_of_nil _]]]|[_ [? [[]%elem_of_nil _]]]]]. done.
  - rewrite IH. setoid_rewrite elem_of_cons.
    repeat case_decide; rewrite ?elem_of_union, ?elem_of_singleton.
    all: clear IH; split; intros Hr.
    all: destruct_or!; destruct_and?;
      repeat match goal with
             | Hex : ∃ _, _ |- _ => destruct Hex as [? [? ?]]; destruct_or?
             end;
      subst; try congruence; eauto 10.
Qed.

Lemma elem_of_requirement_lines (specs : list Agent) (r : string) :
  r ∈ requirement_lines specs ↔ r ∈ add_model_requirements base_requirements specs.
Proof.
  unfold requirement_lines. by rewrite sorted_Permutation, elem_of_set_iter.
Qed.

(** C6: the manifest written to [requirements.txt] lists each entry once, in
    sorted order, one per line; it holds the three base packages, the anthropic
    entry when a specification declares provider [anthropic] and the openai
    entry when one declares [openai]; when both occur it is the five entries
    below. *)
Theorem requirements_manifest self (fs : gmap string string) (specs : list Agent)
    (output_dir : string) :
  let lines := requirement_lines specs in
  let declares p :=
    ∃ spec m, spec ∈ specs ∧ model spec = Some m ∧ provider m = Some p in
  generate_requirements_file self fs specs output_dir
    = (truediv output_dir "requirements.txt",
       open_write fs (truediv output_dir "requirements.txt")
         (foldr (λ req rest, req +:+ newline +:+ rest) "" lines)) ∧
  NoDup lines ∧
  Sorted str_le lines ∧
  (∀ r, r ∈ ["langgraph>=0.0.60"; "langchain>=0.1.0"; "langchain-core>=0.1.0"] →
     r ∈ lines) ∧
  (declares "anthropic" → "langchain-anthropic>=0.1.0" ∈ lines) ∧
  (declares "openai" → "langchain-openai>=0.1.0" ∈ lines) ∧
  (declares "anthropic" → declares "openai" →
     lines = ["langchain-anthropic>=0.1.0"; "langchain-core>=0.1.0";
              "langchain-openai>=0.1.0"; "langchain>=0.1.0"; "langgraph>=0.0.60"]).
Proof.
  intros lines declares.
  assert (∀ p, declares p → ∃ spec, spec ∈ specs ∧
            get (provider (get (model spec) empty_model)) "anthropic" = p) as Hdeclared.
  { intros p (spec & m & Hspec & Hmodel & Hprovider). exists spec.
    split; [done|]. rewrite Hmodel. simpl. by rewrite Hprovider. }
  split; [|split; [|split; [|split; [|split; [|split]]]]].
  - unfold generate_requirements_file. by rewrite written_text.
  - unfold lines, requirement_lines. rewrite sorted_Permutation. apply set_iter_NoDup.
  - apply sorted_Sorted.
  - intros r Hr. apply elem_of_requirement_lines, elem_of_add_model_requirements.
    left. unfold base_requirements. by apply elem_of_list_to_set.
  - intros Hanthropic%Hdeclared.
    apply elem_of_requirement_lines, elem_of_add_model_requirements. auto.
  - intros Hopenai%Hdeclared.
    apply elem_of_requirement_lines, elem_of_add_model_requirements. auto.
  - intros Hanthropic%Hdeclared Hopenai%Hdeclared.
    assert (add_model_requirements base_requirements specs
            = list_to_set ["langgraph>=0.0.60"; "langchain>=0.1.0"; "langchain-core>=0.1.0";
                           "langchain-anthropic>=0.1.0"; "langchain-openai>=0.1.0"])
      as Hset.
    { apply set_eq. intros r. rewrite elem_of_add_model_requirements.
      unfold base_requirements. rewrite !elem_of_list_to_set, !elem_of_cons, elem_of_nil.
      naive_solver. }
    unfold lines, requirement_lines. rewrite Hset.
    rewrite (sorted_order_irrelevant _ _ (set_iter_perm _)).
    by vm_compute.
Qed.

(** C10: a specification with no [model] mapping, or whose [model] has no
    [provider], puts the anthropic entry into the manifest, whatever the other
    specifications are. *)
Theorem missing_provider_counts_as_anthropic self (fs : gmap string string)
    (specs : list Agent) (output_dir : string) (spec : Agent) :
  spec ∈ specs →
  model spec = None ∨ (∃ m, model spec = Some m ∧ provider m = None) →
  "langchain-anthropic>=0.1.0" ∈ requirement_lines specs ∧
  ∃ before after,
    (generate_requirements_file self fs specs output_dir).2
      !! truediv output_dir "requirements.txt"
    = Some (before +:+ "langchain-anthropic>=0.1.0" +:+ newline +:+ after).
Proof.
  intros Hspec Hmissing.
  assert ("langchain-anthropic>=0.1.0" ∈ requirement_lines specs) as Hline.
  { apply elem_of_requirement_lines, elem_of_add_model_requirements.
    right. left. split; [done|]. exists spec. split; [done|].
    destruct Hmissing as [Hmodel | (m & Hmodel & Hprovider)]; rewrite Hmodel; simpl;
      [done | by rewrite Hprovider]. }
  split; [done|].
  apply list_elem_of_split in Hline as (l1 & l2 & Hlines).
  exists (foldr (λ req rest, req +:+ newline +:+ rest) "" l1),
         (foldr (λ req rest, req +:+ newline +:+ rest) "" l2).
  unfold generate_requirements_file, open_write. simpl.
  rewrite lookup_insert_eq, written_text, Hlines. f_equal.
  change ("" +:+ ?s) with s.
  clear. induction l1 as [|req l1 IH]; cbn [foldr app]; [done|].
  by rewrite IH, !string_append_assoc.
Qed.

End requirements.

(** ** The theorems on concrete inputs *)

Section on_samples.
#[local] Existing Instances Sample.set_order Sample.pathlib Sample.jinja2
  Sample.json_dumper Sample.recipe_schema Sample.agent_schema Sample.agent_yaml
  Sample.recipe_yaml.

(** The recipe with two stages named [build], through [validate_file]. *)
Example validate_file_release :
  RecipeValidator.validate_file Sample.recipe_validator Sample.files "recipes/release.yaml"
  = Ok (false,
        ["Duplicate stage names found: build";
         "Stage 'test' must have either 'parallel' or 'sequence' field";
         "Stage 'stage_3' cannot have both 'parallel' and 'sequence' fields"]).
Proof. by vm_compute. Qed.

(** An empty recipe file: the schema's message is lost to the exception that
    semantic validation raises. *)
Example validate_file_empty_recipe :
  RecipeValidator.validate_file Sample.recipe_validator Sample.files "agents/empty.yaml"
  = Ok (false, ["Validation error: 'NoneType' object has no attribute 'get'"]).
Proof. by vm_compute. Qed.

(** C1 fails on names that are not strings.  In the recipe [numbered] two
    stages are named [1]: joining the duplicated names raises [TypeError], so
    semantic validation returns no message, and [validate_file] returns the
    message of the exception and no duplicate-name message. *)
Theorem duplicate_integer_stage_names_not_reported :
  let names := RecipeValidator.stage_names (get (graph Sample.numbered) []) in
  let verdict :=
    RecipeValidator.validate_file Sample.recipe_validator Sample.files
      "recipes/numbered.yaml" in
  count (Int 1) names = 2 ∧
  RecipeValidator._validate_recipe_semantics (Some Sample.numbered)
    = Raise (TypeError "sequence item 0: expected str instance, int found") ∧
  verdict
    = Ok (false, ["Validation error: sequence item 0: expected str instance, int found"]) ∧
  ¬ ∃ ok errors e,
      verdict = Ok (ok, errors) ∧ e ∈ errors ∧
      startswith "Duplicate stage names found: " e = true.
Proof.
  intros names verdict.
  assert (verdict
          = Ok (false,
                ["Validation error: sequence item 0: expected str instance, int found"]))
    as Hverdict by (by vm_compute).
  split; [by vm_compute|]. split; [by vm_compute|]. split; [exact Hverdict|].
  rewrite Hverdict. intros (ok & errors & e & [= <- <-] & He & Hprefix).
  apply list_elem_of_singleton in He as ->. by vm_compute in Hprefix.
Qed.

(** In the recipe with two stages named [build], only that name occurs twice. *)
Lemma build_twice_duplicates (name : scalar) :
  1 < count name (RecipeValidator.stage_names (get (graph Sample.build_twice) []))
  ↔ name = Str "build".
Proof.
  change (RecipeValidator.stage_names _) with [Str "build"; Str "build"; Str "test"].
  rewrite !count_cons. change (count name []) with 0.
  repeat case_decide; simplify_eq; split; (done || lia).
Qed.


(** C3 on an agent with two violations: no [name], an unknown provider. *)
Lemma validate_data_reports_every_violation_witness :
  let found :=
    [{| absolute_path := []; message := "'name' is a required property" |};
     {| absolute_path := [Key "model"; Key "provider"];
        message := "'xyz' is not one of ['anthropic', 'openai']" |}] in
  iter_errors (AgentValidator.schema Sample.agent_validator)
    (Some Sample.unknown_provider_agent) = Ok found ∧
  ∃ errors,
    AgentValidator.validate_data Sample.agent_validator Sample.unknown_provider_agent
      = Ok (false, errors) ∧
    length errors = 2.
Proof.
  intros found.
  assert (iter_errors (AgentValidator.schema Sample.agent_validator)
            (Some Sample.unknown_provider_agent) = Ok found) as Hfound by reflexivity.
  split; [exact Hfound|].
  destruct (validate_data_reports_every_violation Sample.agent_validator
              Sample.unknown_provider_agent found Hfound)
    as (_ & errors & Hrun & Hlength & _).
  exists errors. split; [exact Hrun | exact Hlength].
Defined.

(** C5, as the code has it, on a path that is not among the files. *)
Lemma validate_file_missing_file_verdict_witness :
  Sample.files !! "agents/missing.yaml" = None ∧
  AgentValidator.validate_file (Doc := Agent) Sample.agent_validator Sample.files
    "agents/missing.yaml"
    = Ok (false, ["File not found: " +:+ "agents/missing.yaml"]) ∧
  RecipeValidator.validate_file Sample.recipe_validator Sample.files "agents/missing.yaml"
    = Ok (false, ["File not found: " +:+ "agents/missing.yaml"]).
Proof.
  split; [reflexivity|].
  apply (validate_file_missing_file_verdict (Doc := Agent)). reflexivity.
Defined.

(** C5 as stated fails: on a path with no file [validate_file] returns, and what
    it returns is a verdict [(false, [message])] like the one for a file whose
    provider the schema refuses. *)
Lemma validate_file_missing_file_does_not_abort :
  Sample.files !! "agents/missing.yaml" = None ∧
  AgentValidator.validate_file (Doc := Agent) Sample.agent_validator Sample.files
    "agents/missing.yaml"
    = Ok (false, ["File not found: agents/missing.yaml"]) ∧
  AgentValidator.validate_file (Doc := Agent) Sample.agent_validator Sample.files
    "agents/odd.yaml"
    = Ok (false, ["'name' is a required property";
                  "Field 'model.provider': 'xyz' is not one of ['anthropic', 'openai']"]) ∧
  ¬ ∃ e, AgentValidator.validate_file (Doc := Agent) Sample.agent_validator Sample.files
           "agents/missing.yaml" = Raise e.
Proof.
  split; [reflexivity|]. split; [by vm_compute|]. split; [by vm_compute|].
  intros [e He]. vm_compute in He. discriminate He.
Qed.

(** C7, as the code has it, on a violation inside the first tool. *)
Lemma format_validation_error_with_path_witness :
  let error :=
    {| absolute_path := [Key "tools"; Index 0; Key "type"];
       message := "'shell' is not one of ['builtin', 'http']" |} in
  absolute_path error ≠ [] ∧
  AgentValidator._format_validation_error error
    = "Field 'tools.0.type': 'shell' is not one of ['builtin', 'http']".
Proof.
  split; [discriminate|].
  apply (format_validation_error_with_path
           {| absolute_path := [Key "tools"; Index 0; Key "type"];
              message := "'shell' is not one of ['builtin', 'http']" |}).
  discriminate.
Defined.

(** C7 as stated fails: the message is not the path, a colon and the
    violation's message; the path is quoted and introduced by [Field]. *)
Lemma format_validation_error_not_path_colon_message :
  let error :=
    {| absolute_path := [Key "model"; Key "provider"];
       message := "'xyz' is not one of ['anthropic', 'openai']" |} in
  AgentValidator._format_validation_error error
    = "Field 'model.provider': 'xyz' is not one of ['anthropic', 'openai']" ∧
  AgentValidator._format_validation_error error
    ≠ join "." (str_of_path_elem <$> absolute_path error) +:+ ": " +:+ message error.
Proof. split; [reflexivity | by vm_compute]. Qed.

(** The three kinds of tool, mapped together. *)
Example map_tools_to_openai_sample :
  Sample.dumps (JArray (AgentRenderer._map_tools_to_openai
    [Sample.file_search_tool; Sample.mcp_tool; Sample.fetch_tool]))
  = "[{type: file_search}, {type: function, function: {name: fetch, "
      +:+ "description: Fetch a URL, parameters: {type: object, properties: {}, "
      +:+ "required: []}}}]".
Proof. by vm_compute. Qed.

(** C4, as the code has it, on an [http] tool after a builtin and an [mcp] one. *)
Lemma map_tools_to_openai_by_type_witness :
  tool_type Sample.fetch_tool = Some "http" ∧
  AgentRenderer._map_tools_to_openai
    ([Sample.file_search_tool; Sample.mcp_tool] ++ Sample.fetch_tool :: [])
  = AgentRenderer._map_tools_to_openai [Sample.file_search_tool; Sample.mcp_tool]
    ++ [JObject
          [("type", JString "function");
           ("function",
            JObject
              [("name", JString "fetch");
               ("description", JString "Fetch a URL");
               ("parameters",
                JObject
                  [("type", JString "object");
                   ("properties", JObject []);
                   ("required", JArray [])])])]]
    ++ AgentRenderer._map_tools_to_openai [].
Proof.
  split; [reflexivity|].
  apply (map_tools_to_openai_by_type
           [Sample.file_search_tool; Sample.mcp_tool] [] Sample.fetch_tool).
  reflexivity.
Defined.

(** C4 as stated fails: a tool whose type is neither [builtin] nor [http] gets
    no function descriptor; it is dropped. *)
Lemma map_tools_to_openai_drops_other_types :
  tool_type Sample.mcp_tool ≠ Some "builtin" ∧
  AgentRenderer._map_tools_to_openai [Sample.mcp_tool] = [] ∧
  ¬ (∀ tool, tool_type tool ≠ Some "builtin" →
       ∃ descriptor, AgentRenderer._map_tools_to_openai [tool] = [descriptor]).
Proof.
  split; [discriminate|]. split; [reflexivity|].
  intros Hall. destruct (Hall Sample.mcp_tool) as [descriptor Hmapped]; [discriminate|].
  vm_compute in Hmapped. discriminate Hmapped.
Qed.


(** With an [id]: the three files of the adapters' test agent, [test-agent]. *)
Example render_assistant_config_test_agent :
  ∃ fs', AgentRenderer.render_assistant_config (AgentRenderer.__init__ "templates")
           Sample.files "agents/test-agent.yaml" "out"
         = Ok ("out/test-agent_assistant.json", fs').
Proof. eexists. reflexivity. Qed.

Example render_template_strategies_test_agent :
  AgentRenderer.render_claude_agent (AgentRenderer.__init__ "templates")
    Sample.files "agents/test-agent.yaml" "out"
  = Ok ("out/test-agent.md", open_write Sample.files "out/test-agent.md" "# Test Agent") ∧
  AgentRenderer.render_langgraph_agent (AgentRenderer.__init__ "templates")
    Sample.files "agents/test-agent.yaml" "out"
  = Ok ("out/test_agent_agent.py",
        open_write Sample.files "out/test_agent_agent.py" "# agent Test Agent").
Proof. split; reflexivity. Qed.

(** A templates directory without the template, and an empty document. *)
Example claude_render_agent_failures :
  ClaudeAdapter.render_agent (ClaudeAdapter.__init__ "nowhere") Sample.files
    (Some Sample.test_agent)
  = Raise (TemplateNotFound "claude_subagent.md.jinja") ∧
  ClaudeAdapter.generate_subagent_file (ClaudeAdapter.__init__ "templates") Sample.files
    "agents/empty.yaml" "out"
  = Raise (AttributeError "'NoneType' object has no attribute 'get'").
Proof. split; reflexivity. Qed.


(** The specifications of the adapters' test: one on anthropic, one on openai. *)
Example requirements_of_both_providers :
  LangGraphAdapter.requirement_lines [Sample.test_agent; Sample.openai_agent]
  = ["langchain-anthropic>=0.1.0"; "langchain-core>=0.1.0"; "langchain-openai>=0.1.0";
     "langchain>=0.1.0"; "langgraph>=0.0.60"].
Proof. by vm_compute. Qed.

(** C6 on the two specifications of the adapters' test. *)
Lemma requirements_manifest_witness :
  let specs := [Sample.test_agent; Sample.openai_agent] in
  (∃ spec m, spec ∈ specs ∧ model spec = Some m ∧ provider m = Some "anthropic") ∧
  (∃ spec m, spec ∈ specs ∧ model spec = Some m ∧ provider m = Some "openai") ∧
  LangGraphAdapter.requirement_lines specs
  = ["langchain-anthropic>=0.1.0"; "langchain-core>=0.1.0"; "langchain-openai>=0.1.0";
     "langchain>=0.1.0"; "langgraph>=0.0.60"].
Proof.
  intros specs.
  assert (∃ spec m, spec ∈ specs ∧ model spec = Some m ∧ provider m = Some "anthropic")
    as Hanthropic.
  { exists Sample.test_agent. eexists. split; [left|]. split; reflexivity. }
  assert (∃ spec m, spec ∈ specs ∧ model spec = Some m ∧ provider m = Some "openai")
    as Hopenai.
  { exists Sample.openai_agent. eexists. split; [right; left|]. split; reflexivity. }
  split; [exact Hanthropic|]. split; [exact Hopenai|].
  destruct (requirements_manifest (LangGraphAdapter.__init__ "templates") ∅ specs "out")
    as (_ & _ & _ & _ & _ & _ & Hboth).
  exact (Hboth Hanthropic Hopenai).
Defined.

(** C10 on an openai agent and the draft agent, which has no [model]. *)
Lemma missing_provider_counts_as_anthropic_witness :
  Sample.draft_agent ∈ [Sample.openai_agent; Sample.draft_agent] ∧
  model Sample.draft_agent = None ∧
  "langchain-anthropic>=0.1.0"
    ∈ LangGraphAdapter.requirement_lines [Sample.openai_agent; Sample.draft_agent].
Proof.
  assert (Sample.draft_agent ∈ [Sample.openai_agent; Sample.draft_agent]) as Hspec.
  { right. left. }
  split; [exact Hspec|]. split; [reflexivity|].
  apply (missing_provider_counts_as_anthropic (LangGraphAdapter.__init__ "templates") ∅
           [Sample.openai_agent; Sample.draft_agent] "out" Sample.draft_agent Hspec).
  left. reflexivity.
Defined.

End on_samples.

(** * Further properties *)

Lemma NoDup_singleton_iff {A : Type} (l : list A) (a : A) :
  NoDup l → (∀ x, x ∈ l ↔ x = a) → l = [a].
Proof.
  intros Hnodup Ha. destruct l as [|x [|y l]].
  - assert (a ∈ @nil A) as []%elem_of_nil. by apply Ha.
  - f_equal. apply Ha. left.
  - apply NoDup_cons in Hnodup as [Hx _]. destruct Hx.
    assert (x = a) as -> by (apply Ha; left).
    assert (y = a) as -> by (apply Ha; right; left). left.
Qed.

(** ** Verdicts of the validators *)

Section verdicts.
Context {ASchema RSchema Doc : Type}
  `{agent_loader : !Yaml Doc, !JsonSchema ASchema Doc,
    recipe_loader : !Yaml Recipe, !JsonSchema RSchema Recipe, !SetOrder}.
Implicit Types (agents : AgentValidator.t (Schema := ASchema)).
Implicit Types (recipes : RecipeValidator.t (Schema := RSchema)).

Lemma verdict_of_length (errors : list string) :
  bool_decide (length errors = 0) = true ↔ errors = [].
Proof. rewrite bool_decide_eq_true. by destruct errors. Qed.

(** What a run of [validate_file] ends in, for the two validators. *)
Lemma agent_validate_file_verdict agents (fs : gmap string string) (yaml_path : string) :
  ∃ ok errors, AgentValidator.validate_file (Doc := Doc) agents fs yaml_path = Ok (ok, errors) ∧
    (ok = true ↔ errors = []).
Proof.
  assert (∀ msg : string, false = true ↔ [msg] = []) as Hfailed by done.
  unfold AgentValidator.validate_file.
  destruct (open_read fs yaml_path) as [text|e]; simpl; [|destruct e; eauto].
  destruct (safe_load text) as [doc|e]; simpl; [|destruct e; eauto].
  destruct (iter_errors (AgentValidator.schema agents) doc) as [found|e]; simpl;
    [|destruct e; eauto].
  eexists _, _. split; [done|]. apply verdict_of_length.
Qed.

Lemma recipe_validate_file_verdict recipes (fs : gmap string string) (yaml_path : string) :
  ∃ ok errors, RecipeValidator.validate_file recipes fs yaml_path = Ok (ok, errors) ∧
    (ok = true ↔ errors = []).
Proof.
  assert (∀ msg : string, false = true ↔ [msg] = []) as Hfailed by done.
  unfold RecipeValidator.validate_file.
  destruct (open_read fs yaml_path) as [text|e]; simpl; [|destruct e; eauto].
  destruct (safe_load text) as [doc|e]; simpl; [|destruct e; eauto].
  destruct (iter_errors (RecipeValidator.schema recipes) doc) as [found|e]; simpl;
    [|destruct e; eauto].
  destruct (RecipeValidator._validate_recipe_semantics doc) as [semantic|e]; simpl;
    [|destruct e; eauto].
  eexists _, _. split; [done|]. apply verdict_of_length.
Qed.

(** X1: whatever the file system, the loader and the schema validator do,
    [validate_file] and [validate_data] return a verdict and raise nothing, and
    the verdict is [true] exactly when the list of messages is empty. *)
Theorem validators_return_consistent_verdicts agents recipes
    (fs : gmap string string) (yaml_path : string) (data : Doc) :
  (∃ ok errors, AgentValidator.validate_file agents fs yaml_path = Ok (ok, errors) ∧
     (ok = true ↔ errors = [])) ∧
  (∃ ok errors, AgentValidator.validate_data agents data = Ok (ok, errors) ∧
     (ok = true ↔ errors = [])) ∧
  (∃ ok errors, RecipeValidator.validate_file recipes fs yaml_path = Ok (ok, errors) ∧
     (ok = true ↔ errors = [])).
Proof.
  split; [apply agent_validate_file_verdict|]. split; [|apply recipe_validate_file_verdict].
  unfold AgentValidator.validate_data.
  destruct (iter_errors (AgentValidator.schema agents) (Some data)) as [found|e]; simpl.
  - eexists _, _. split; [done|]. apply verdict_of_length.
  - eexists _, _. split; [done|]. done.
Qed.

(** X2: a file that the loader cannot parse gets the single message
    [YAML parsing error: <detail>]; the schema validator and the semantic checks
    are not consulted, whatever they would have said. *)
Theorem unparsable_file_reported_alone agents recipes
    (fs : gmap string string) (yaml_path text detail : string) :
  fs !! yaml_path = Some text →
  safe_load (Yaml := agent_loader) text = Raise (YAMLError detail) →
  safe_load (Yaml := recipe_loader) text = Raise (YAMLError detail) →
  AgentValidator.validate_file agents fs yaml_path
    = Ok (false, ["YAML parsing error: " +:+ detail]) ∧
  RecipeValidator.validate_file recipes fs yaml_path
    = Ok (false, ["YAML parsing error: " +:+ detail]).
Proof.
  intros Hfile Hagent Hrecipe.
  unfold AgentValidator.validate_file, RecipeValidator.validate_file, open_read.
  rewrite Hfile. simpl. by rewrite Hagent, Hrecipe.
Qed.

(** X3: on a file that parses to a mapping, [validate_file] of the agent
    validator returns what [validate_data] returns on that mapping, as long as
    the schema validator runs to its end. *)
Theorem validate_file_agrees_with_validate_data agents
    (fs : gmap string string) (yaml_path text : string) (data : Doc)
    (found : list ValidationError) :
  fs !! yaml_path = Some text →
  safe_load text = Ok (Some data) →
  iter_errors (AgentValidator.schema agents) (Some data) = Ok found →
  AgentValidator.validate_file agents fs yaml_path
    = AgentValidator.validate_data agents data.
Proof.
  intros Hfile Hload Hfound.
  unfold AgentValidator.validate_file, AgentValidator.validate_data, open_read.
  rewrite Hfile. simpl. rewrite Hload. simpl. by rewrite Hfound.
Qed.

(** X4: an empty recipe file loses the schema's messages: semantic validation
    raises on the [None] document, and the handler returns the one message of
    that exception in place of everything found so far. *)
Theorem empty_recipe_file_loses_schema_errors recipes
    (fs : gmap string string) (yaml_path text : string) (found : list ValidationError) :
  fs !! yaml_path = Some text →
  safe_load text = Ok None →
  iter_errors (RecipeValidator.schema recipes) None = Ok found →
  RecipeValidator.validate_file recipes fs yaml_path
    = Ok (false, ["Validation error: 'NoneType' object has no attribute 'get'"]).
Proof.
  intros Hfile Hload Hfound. unfold RecipeValidator.validate_file, open_read.
  rewrite Hfile. simpl. rewrite Hload. simpl. by rewrite Hfound.
Qed.

End verdicts.

(** ** What semantic validation accepts and reports *)

Section semantics.
Context {Schema : Type} `{!Yaml Recipe, !JsonSchema Schema Recipe, !SetOrder}.
Implicit Types (self : RecipeValidator.t (Schema := Schema)).
Import RecipeValidator.

Lemma duplicate_stages_empty (names : list scalar) :
  duplicate_stages names = ∅ ↔ NoDup names.
Proof.
  rewrite NoDup_count. split.
  - intros Hempty n. destruct (decide (1 < count n names)) as [Hn|]; [|lia].
    apply elem_of_duplicate_stages in Hn. rewrite Hempty in Hn. set_solver.
  - intros Hcount. apply set_eq. intros n. rewrite elem_of_duplicate_stages.
    specialize (Hcount n). set_solver by lia.
Qed.

Lemma check_stages_nil_iff (i : nat) (graph : list Stage) :
  check_stages i graph [] = [] ↔
  ∀ s, s ∈ graph → (is_Some (parallel s) ↔ sequence s = None).
Proof.
  revert i. induction graph as [|s graph IH]; intros i.
  - split; [intros _ s []%elem_of_nil | done].
  - setoid_rewrite elem_of_cons. simpl.
    destruct (parallel s) as [p|] eqn:Hp, (sequence s) as [q|] eqn:Hq; simpl.
    + rewrite check_stages_app. split; [done|]. intros Hall.
      destruct (Hall s) as [Hs _]; [by left|]. rewrite Hp, Hq in Hs.
      by discriminate Hs.
    + rewrite IH. split.
      * intros Hall s' [->|Hs']; [by rewrite Hp, Hq | by apply Hall].
      * intros Hall s' Hs'. apply Hall. by right.
    + rewrite IH. split.
      * intros Hall s' [->|Hs']; [|by apply Hall]. rewrite Hp, Hq.
        split; [by intros [? ?] | done].
      * intros Hall s' Hs'. apply Hall. by right.
    + rewrite check_stages_app. split; [done|]. intros Hall.
      destruct (Hall s) as [_ Hs]; [by left|]. rewrite Hp, Hq in Hs.
      by destruct Hs.
Qed.

Lemma semantics_accepted_iff (data : Recipe) :
  _validate_recipe_semantics (Some data) = Ok [] ↔
  NoDup (stage_names (get (graph data) [])) ∧
  ∀ s, s ∈ get (graph data) [] → (is_Some (parallel s) ↔ sequence s = None).
Proof.
  pose proof (validate_recipe_semantics_unfold data) as Hrun. cbv zeta in Hrun.
  rewrite Hrun, <- duplicate_stages_empty, <- (check_stages_nil_iff 0).
  destruct (decide (duplicate_stages (stage_names (get (graph data) [])) = ∅)).
  - split; [by intros [= ->] | by intros [_ ->]].
  - destruct (join_scalars ", " _); simpl; (split; [done | by intros [? _]]).
Qed.

(** X5: semantic validation returns no message exactly when the stage names are
    pairwise distinct and every stage has exactly one of the keys [parallel]
    and [sequence]. *)
Theorem semantics_accepts_exactly_well_formed_graphs (data : Recipe) :
  _validate_recipe_semantics (Some data) = Ok [] ↔
  NoDup (stage_names (get (graph data) [])) ∧
  ∀ s, s ∈ get (graph data) [] → (is_Some (parallel s) ↔ sequence s = None).
Proof. apply semantics_accepted_iff. Qed.

(** X6: [validate_file] accepts a recipe file that parses to a mapping exactly
    when the schema validator finds nothing, the stage names are pairwise
    distinct and every stage has exactly one execution mode. *)
Theorem recipe_file_accepted_iff self (fs : gmap string string)
    (yaml_path text : string) (data : Recipe) (found : list ValidationError) :
  fs !! yaml_path = Some text →
  safe_load text = Ok (Some data) →
  iter_errors (schema self) (Some data) = Ok found →
  validate_file self fs yaml_path = Ok (true, []) ↔
  found = [] ∧
  NoDup (stage_names (get (graph data) [])) ∧
  ∀ s, s ∈ get (graph data) [] → (is_Some (parallel s) ↔ sequence s = None).
Proof.
  intros Hfile Hload Hfound.
  rewrite <- semantics_accepted_iff.
  destruct (_validate_recipe_semantics (Some data)) as [errors|e] eqn:Hrun.
  - rewrite (recipe_validate_file_returns _ _ _ _ _ _ _ Hfile Hload Hfound Hrun).
    rewrite recipe_collect_errors_fmap. split.
    + intros [= _ Herrors]. apply app_eq_nil in Herrors as [Hfmap ->].
      by apply fmap_nil_inv in Hfmap.
    + intros [-> [= ->]]. done.
  - split; [|by intros [_ ?]].
    by destruct (recipe_validate_file_rejects _ _ _ _ _ _ _ Hfile Hload Hfound Hrun)
      as [msg ->].
Qed.

Lemma check_stages_justified (stages : list Stage) (i : nat) (e : string) :
  e ∈ check_stages i stages [] →
  ∃ j s, stages !! j = Some s ∧
    let stage_name := str (get (stage s) (Str ("stage_" +:+ str_of_nat (i + j)))) in
    (parallel s = None ∧ sequence s = None ∧
     e = "Stage '" +:+ stage_name
           +:+ "' must have either 'parallel' or 'sequence' field") ∨
    (is_Some (parallel s) ∧ is_Some (sequence s) ∧
     e = "Stage '" +:+ stage_name
           +:+ "' cannot have both 'parallel' and 'sequence' fields").
Proof.
  revert i. induction stages as [|s stages IH]; intros i; [by intros ?%elem_of_nil|].
  assert (e ∈ check_stages (S i) stages [] →
          ∃ j s0, (s :: stages) !! j = Some s0 ∧
            let stage_name :=
              str (get (stage s0) (Str ("stage_" +:+ str_of_nat (i + j)))) in
            (parallel s0 = None ∧ sequence s0 = None ∧
             e = "Stage '" +:+ stage_name
                   +:+ "' must have either 'parallel' or 'sequence' field") ∨
            (is_Some (parallel s0) ∧ is_Some (sequence s0) ∧
             e = "Stage '" +:+ stage_name
                   +:+ "' cannot have both 'parallel' and 'sequence' fields")) as Hrest.
  { intros (j & s0 & Hj & Hs0)%IH. exists (S j), s0. split; [done|].
    replace (i + S j) with (S i + j) by lia. exact Hs0. }
  simpl.
  destruct (parallel s) as [p|] eqn:Hp, (sequence s) as [q|] eqn:Hq; simpl;
    try exact Hrest.
  - rewrite check_stages_app. intros [He|He]%elem_of_app; [|by apply Hrest].
    apply list_elem_of_singleton in He. exists 0, s. split; [done|].
    rewrite Nat.add_0_r, Hp, Hq. right. eauto.
  - rewrite check_stages_app. intros [He|He]%elem_of_app; [|by apply Hrest].
    apply list_elem_of_singleton in He. exists 0, s. split; [done|].
    rewrite Nat.add_0_r, Hp, Hq. left. eauto.
Qed.

(** X7: semantic validation reports nothing else: every message it returns is
    the duplicate-name message or the message of a stage of the graph that has
    neither or both of the keys, under that stage's name or position. *)
Theorem semantic_errors_are_justified (data : Recipe) (errors : list string) (e : string) :
  _validate_recipe_semantics (Some data) = Ok errors →
  e ∈ errors →
  (¬ NoDup (stage_names (get (graph data) [])) ∧
   startswith "Duplicate stage names found: " e = true) ∨
  ∃ i s, get (graph data) [] !! i = Some s ∧
    let stage_name := str (get (stage s) (Str ("stage_" +:+ str_of_nat i))) in
    (parallel s = None ∧ sequence s = None ∧
     e = "Stage '" +:+ stage_name
           +:+ "' must have either 'parallel' or 'sequence' field") ∨
    (is_Some (parallel s) ∧ is_Some (sequence s) ∧
     e = "Stage '" +:+ stage_name
           +:+ "' cannot have both 'parallel' and 'sequence' fields").
Proof.
  pose proof (validate_recipe_semantics_unfold data) as Hrun. cbv zeta in Hrun.
  rewrite Hrun. destruct (decide _) as [|Hdup].
  - intros [= <-] He. right. by apply (check_stages_justified _ 0) in He.
  - destruct (join_scalars ", " _) as [joined|]; [simpl|done].
    intros [= <-] [He|He]%elem_of_cons.
    + left. subst e. split; [by rewrite <- duplicate_stages_empty|].
      apply startswith_append.
    + right. by apply (check_stages_justified _ 0) in He.
Qed.

Lemma check_stages_length (stages : list Stage) (i : nat) :
  length (check_stages i stages [])
  = length (filter (λ s, contains (parallel s) = contains (sequence s)) stages).
Proof.
  revert i. induction stages as [|s stages IH]; intros i; [done|].
  rewrite filter_cons. cbn [check_stages].
  destruct (parallel s), (sequence s); cbn [contains negb andb].
  - rewrite decide_True by done. rewrite check_stages_app, length_app, IH. done.
  - rewrite decide_False by done. apply IH.
  - rewrite decide_False by done. apply IH.
  - rewrite decide_True by done. rewrite check_stages_app, length_app, IH. done.
Qed.

(** X8: in what semantic validation returns there is one message for the
    duplicate names, if some name occurs twice, and exactly one for each stage
    that has neither or both of the keys: the number of messages never exceeds
    the number of stages by more than one. *)
Theorem semantic_errors_counted (data : Recipe) (errors : list string) :
  _validate_recipe_semantics (Some data) = Ok errors →
  length errors
  = (if decide (NoDup (stage_names (get (graph data) []))) then 0 else 1)
    + length (filter (λ s, contains (parallel s) = contains (sequence s))
                (get (graph data) [])) ∧
  length errors ≤ 1 + length (get (graph data) []).
Proof.
  pose proof (validate_recipe_semantics_unfold data) as Hrun. cbv zeta in Hrun.
  rewrite Hrun.
  pose proof (length_filter (λ s, contains (parallel s) = contains (sequence s))
                (get (graph data) [])) as Hle.
  pose proof (check_stages_length (get (graph data) []) 0) as Hloop.
  destruct (decide (duplicate_stages _ = ∅)) as [Hnone|Hsome];
    destruct (decide (NoDup _)) as [Hnodup|Hdup].
  - intros [= <-]. lia.
  - by apply duplicate_stages_empty in Hnone.
  - by apply duplicate_stages_empty in Hnodup.
  - destruct (join_scalars ", " _) as [joined|]; [simpl|done].
    intros [= <-]. simpl. lia.
Qed.

(** X20: when the stage names that occur twice or more are strings, the recipe
    gets exactly one duplicate-name message, and that message is the prefix
    followed by the names that occur more than once, each once, separated by
    a comma and a space.  [validate_file] returns it after the schema's
    messages, with verdict [false]. *)
Theorem duplicate_string_stage_names_reported_once (data : Recipe) (name : string) :
  let names := stage_names (get (graph data) []) in
  1 < count (Str name) names →
  (∀ other, 1 < count other names → ∃ text, other = Str text) →
  ∃ errors duplicates,
    _validate_recipe_semantics (Some data) = Ok errors ∧
    NoDup duplicates ∧
    (∀ n, n ∈ duplicates ↔ 1 < count (Str n) names) ∧
    filter (λ e, startswith "Duplicate stage names found: " e) errors
      = ["Duplicate stage names found: " +:+ String.concat ", " duplicates] ∧
    ∀ self fs yaml_path text found,
      fs !! yaml_path = Some text →
      safe_load text = Ok (Some data) →
      iter_errors (schema self) (Some data) = Ok found →
      validate_file self fs yaml_path = Ok (false, collect_errors found ++ errors).
Proof.
  intros names Hcount Hstr.
  destruct (validate_recipe_semantics_returns data Hstr) as (duplicates & Hiter & Hrun).
  fold names in Hiter, Hrun.
  assert (duplicate_stages names ≠ ∅) as Hne.
  { apply elem_of_duplicate_stages in Hcount. set_solver. }
  destruct (decide (duplicate_stages names = ∅)) as [|_]; [done|].
  eexists _, duplicates.
  split; [exact Hrun|]. split.
  { apply (NoDup_fmap_1 Str). rewrite <- Hiter. apply set_iter_NoDup. }
  split.
  { intros n. rewrite <- elem_of_duplicate_stages, <- elem_of_set_iter, Hiter.
    rewrite list_elem_of_fmap. split; [by exists n|]. by intros (n' & [= ->] & ?). }
  split.
  { rewrite filter_app, check_stages_no_duplicate_message, app_nil_r.
    rewrite <- (join_concat ", " duplicates).
    rewrite filter_cons_True; [done|].
    apply Is_true_true, startswith_append. }
  intros self fs yaml_path text found Hfile Hload Hfound.
  rewrite (recipe_validate_file_returns _ _ _ _ _ _ _ Hfile Hload Hfound Hrun).
  do 2 f_equal. apply bool_decide_eq_false. rewrite !length_app. simpl. lia.
Qed.

(** X21: when a stage name that occurs twice or more is not a string, joining
    the duplicated names raises [TypeError]: semantic validation returns no
    message, and [validate_file] returns the message of the exception alone,
    without the schema's messages and without a duplicate-name message. *)
Theorem duplicate_non_string_stage_names_raise (data : Recipe) (name : scalar) :
  let names := stage_names (get (graph data) []) in
  1 < count name names →
  (∀ text, name ≠ Str text) →
  ∃ msg,
    _validate_recipe_semantics (Some data) = Raise (TypeError msg) ∧
    ∀ self fs yaml_path text found,
      fs !! yaml_path = Some text →
      safe_load text = Ok (Some data) →
      iter_errors (schema self) (Some data) = Ok found →
      validate_file self fs yaml_path = Ok (false, ["Validation error: " +:+ msg]).
Proof.
  intros names Hcount Hother.
  pose proof (validate_recipe_semantics_unfold data) as Hrun. cbv zeta in Hrun.
  fold names in Hrun.
  apply elem_of_duplicate_stages in Hcount.
  destruct (decide (duplicate_stages names = ∅)) as [Hnone|_]; [set_solver|].
  destruct (join_scalars_outcome ", " (set_iter (duplicate_stages names)))
    as [(strs & Hstrs & _)|(v & msg & _ & _ & Hjoin)].
  - apply elem_of_set_iter in Hcount. rewrite Hstrs in Hcount.
    apply list_elem_of_fmap in Hcount as (text & -> & _). by destruct (Hother text).
  - rewrite Hjoin in Hrun. exists msg. split; [exact Hrun|].
    intros self fs yaml_path text found Hfile Hload Hfound.
    by apply (recipe_validate_file_raised _ _ _ _ _ _ _ Hfile Hload Hfound).
Qed.

End semantics.

(** ** All the files of two directories *)

Section all_files.
Context {ASchema RSchema Doc : Type}
  `{!Yaml Doc, agent_schemas : !JsonSchema ASchema Doc,
    !Yaml Recipe, recipe_schemas : !JsonSchema RSchema Recipe,
    !SetOrder, !Pathlib, !Rglob}.

(** One loop of [validate_all_files], run to its end: what it adds to the group
    and to the summary. *)
Lemma validate_each_returns (validate_file : string → result (bool * list string))
    (yaml_files : list string) (group group' : Results.Group)
    (summary summary' : Results.Summary) :
  validate_each validate_file yaml_files group summary = Ok (group', summary') →
  ∃ accepted refused,
    Results.valid group' = Results.valid group ++ accepted ∧
    Results.invalid group' = Results.invalid group ++ refused ∧
    Results.total_files summary'
      = Results.total_files summary + length accepted + length refused ∧
    Results.valid_files summary' = Results.valid_files summary + length accepted ∧
    Results.invalid_files summary' = Results.invalid_files summary + length refused ∧
    accepted ++ (Results.file <$> refused)
      ≡ₚ filter (λ path, str_in "_templates" path = false) yaml_files ∧
    (∀ path, path ∈ accepted → ∃ errors, validate_file path = Ok (true, errors)) ∧
    (∀ entry, entry ∈ refused →
       validate_file (Results.file entry) = Ok (false, Results.errors entry)).
Proof.
  revert group summary.
  induction yaml_files as [|yaml_file rest IH]; intros group summary; simpl.
  - intros [= <- <-]. exists [], []. rewrite !app_nil_r. simpl.
    repeat split; try lia; try done; by intros ? ?%elem_of_nil.
  - rewrite filter_cons. destruct (str_in "_templates" yaml_file) eqn:Htemplate.
    { rewrite decide_False by done. apply IH. }
    rewrite decide_True by done.
    destruct (validate_file yaml_file) as [[is_valid errors]|e] eqn:Hverdict; simpl;
      [|done].
    destruct is_valid; intros Hrest; apply IH in Hrest; simpl in Hrest;
      destruct Hrest as
        (accepted & refused & Hvalid & Hinvalid & Htotal & Hvalids & Hinvalids
         & Hperm & Haccepted & Hrefused).
    + exists (yaml_file :: accepted), refused.
      rewrite Hvalid, Hinvalid, Htotal, Hvalids, Hinvalids, <- !app_assoc. simpl.
      repeat split; try lia.
      * by rewrite Hperm.
      * intros path [->|Hpath]%elem_of_cons; eauto.
      * done.
    + exists accepted, ({| Results.file := yaml_file; Results.errors := errors |} :: refused).
      rewrite Hvalid, Hinvalid, Htotal, Hvalids, Hinvalids, <- !app_assoc. simpl.
      repeat split; try lia.
      * by rewrite <- Hperm, Permutation_middle.
      * done.
      * intros entry [->|Hentry]%elem_of_cons; eauto.
Qed.

(** A loop whose validator never raises runs to its end. *)
Lemma validate_each_never_raises (validate_file : string → result (bool * list string))
    (yaml_files : list string) (group : Results.Group) (summary : Results.Summary) :
  (∀ path, ∃ verdict, validate_file path = Ok verdict) →
  ∃ state, validate_each validate_file yaml_files group summary = Ok state.
Proof.
  intros Htotal. revert group summary.
  induction yaml_files as [|yaml_file rest IH]; intros group summary; simpl; [eauto|].
  destruct (str_in "_templates" yaml_file); [apply IH|].
  destruct (Htotal yaml_file) as [[is_valid errors] ->]. simpl.
  destruct is_valid; apply IH.
Qed.

(** X9: the results of [validate_all_files] account for every scanned file once:
    each [*.yaml] file of the two directories whose path does not contain
    [_templates] is either in the valid list of its group or, with the messages
    of its verdict, in the invalid list; the summary counts them, and
    [total_files = valid_files + invalid_files]. *)
Theorem validate_all_files_accounts_for_every_file (fs : gmap string string)
    (agents_dir recipes_dir schemas_dir : string) (results : Results.t) :
  validate_all_files (ASchema := ASchema) (RSchema := RSchema) (Doc := Doc)
    fs agents_dir recipes_dir schemas_dir = Ok results →
  let scanned dir :=
    filter (λ path, str_in "_templates" path = false) (rglob fs dir "*.yaml") in
  let agents := Results.agents results in
  let recipes := Results.recipes results in
  let summary := Results.summary results in
  Results.valid agents ++ (Results.file <$> Results.invalid agents)
    ≡ₚ scanned agents_dir ∧
  Results.valid recipes ++ (Results.file <$> Results.invalid recipes)
    ≡ₚ scanned recipes_dir ∧
  Results.total_files summary
    = length (scanned agents_dir) + length (scanned recipes_dir) ∧
  Results.valid_files summary
    = length (Results.valid agents) + length (Results.valid recipes) ∧
  Results.invalid_files summary
    = length (Results.invalid agents) + length (Results.invalid recipes) ∧
  Results.total_files summary
    = Results.valid_files summary + Results.invalid_files summary ∧
  (∀ entry, entry ∈ Results.invalid agents ∨ entry ∈ Results.invalid recipes →
     Results.errors entry ≠ []).
Proof.
  unfold validate_all_files. intros Hrun.
  destruct (AgentValidator.__init__ fs _) as [agent_validator|] eqn:Hagents;
    simpl in Hrun; [|done].
  destruct (RecipeValidator.__init__ fs _) as [recipe_validator|] eqn:Hrecipes;
    simpl in Hrun; [|done].
  destruct (validate_each (AgentValidator.validate_file agent_validator fs) _ _ _)
    as [[agents summary1]|] eqn:Hloop1; simpl in Hrun; [|done].
  destruct (validate_each (RecipeValidator.validate_file recipe_validator fs) _ _ _)
    as [[recipes summary2]|] eqn:Hloop2; simpl in Hrun; [|done].
  injection Hrun as <-. simpl.
  apply validate_each_returns in Hloop1
    as (accepted1 & refused1 & Hvalid1 & Hinvalid1 & Htotal1 & Hvalids1 & Hinvalids1
        & Hperm1 & Haccepted1 & Hrefused1).
  apply validate_each_returns in Hloop2
    as (accepted2 & refused2 & Hvalid2 & Hinvalid2 & Htotal2 & Hvalids2 & Hinvalids2
        & Hperm2 & Haccepted2 & Hrefused2).
  simpl in *. subst.
  rewrite <- Hperm1, <- Hperm2, !length_app, !length_fmap.
  repeat split; try done; try lia.
  intros entry [Hentry|Hentry] Hnone.
  - pose proof (Hrefused1 entry Hentry) as Hverdict.
    destruct (agent_validate_file_verdict (Doc := Doc) agent_validator fs
                (Results.file entry)) as (ok & errors & Heq & Hok).
    rewrite Hverdict in Heq. injection Heq as <- <-. by apply Hok in Hnone.
  - pose proof (Hrefused2 entry Hentry) as Hverdict.
    destruct (recipe_validate_file_verdict recipe_validator fs
                (Results.file entry)) as (ok & errors & Heq & Hok).
    rewrite Hverdict in Heq. injection Heq as <- <-. by apply Hok in Hnone.
Qed.

(** X10: [validate_all_files] builds both validators before it looks at any
    file, with no handler around the constructors: when a schema file does not
    exist it raises [FileNotFoundError] and returns no results; when both schemas
    load it returns results, whatever the scanned files hold. *)
Theorem validate_all_files_needs_both_schemas (fs : gmap string string)
    (agents_dir recipes_dir schemas_dir : string) :
  let agent_schema := truediv schemas_dir "agent-spec-v1.json" in
  let recipe_schema := truediv schemas_dir "recipe-spec-v1.json" in
  let run :=
    validate_all_files (ASchema := ASchema) (RSchema := RSchema) (Doc := Doc)
      fs agents_dir recipes_dir schemas_dir in
  (fs !! agent_schema = None → ∃ msg, run = Raise (FileNotFoundError msg)) ∧
  (∀ text schema,
     fs !! agent_schema = Some text →
     json_load (JsonSchema := agent_schemas) text = Ok schema →
     fs !! recipe_schema = None →
     ∃ msg, run = Raise (FileNotFoundError msg)) ∧
  (∀ text1 schema1 text2 schema2,
     fs !! agent_schema = Some text1 →
     json_load (JsonSchema := agent_schemas) text1 = Ok schema1 →
     fs !! recipe_schema = Some text2 →
     json_load (JsonSchema := recipe_schemas) text2 = Ok schema2 →
     ∃ results, run = Ok results).
Proof.
  intros agent_schema recipe_schema run. subst run.
  unfold validate_all_files, AgentValidator.__init__, RecipeValidator.__init__, open_read.
  fold agent_schema recipe_schema.
  split; [|split].
  - intros ->. simpl. eauto.
  - intros text schema -> Hschema ->. simpl. rewrite Hschema. simpl. eauto.
  - intros text1 schema1 text2 schema2 -> Hschema1 -> Hschema2. simpl.
    rewrite Hschema1. simpl. rewrite Hschema2. simpl.
    destruct (validate_each_never_raises
                (AgentValidator.validate_file (Doc := Doc)
                   {| AgentValidator.schema_path := agent_schema;
                      AgentValidator.schema := schema1 |} fs)
                (rglob fs agents_dir "*.yaml")
                {| Results.valid := []; Results.invalid := [] |}
                {| Results.total_files := 0; Results.valid_files := 0;
                   Results.invalid_files := 0 |}) as [[agents summary1] ->].
    { intros path.
      destruct (agent_validate_file_verdict (Doc := Doc)
                  {| AgentValidator.schema_path := agent_schema;
                     AgentValidator.schema := schema1 |} fs path)
        as (ok & errors & -> & _). eauto. }
    simpl.
    destruct (validate_each_never_raises
                (RecipeValidator.validate_file
                   {| RecipeValidator.schema_path := recipe_schema;
                      RecipeValidator.schema := schema2 |} fs)
                (rglob fs recipes_dir "*.yaml")
                {| Results.valid := []; Results.invalid := [] |} summary1)
      as [[recipes summary2] ->].
    { intros path.
      destruct (recipe_validate_file_verdict
                  {| RecipeValidator.schema_path := recipe_schema;
                     RecipeValidator.schema := schema2 |} fs path)
        as (ok & errors & -> & _). eauto. }
    simpl. eauto.
Qed.

End all_files.

(** ** The configuration strategy *)

Section configuration.
Context {Template : Type} `{!Yaml Agent, !Jinja2 Template, !Pathlib, !JsonDump}.
Implicit Types (self : AgentRenderer.t).
Import AgentRenderer.

Lemma tier_mapping_lookup (tier : string) :
  tier_mapping !! tier
  = if decide (tier = "gpt-3.5") then Some "gpt-3.5-turbo"
    else if decide (tier = "gpt-4") then Some "gpt-4"
    else if decide (tier = "gpt-4o") then Some "gpt-4o"
    else None.
Proof.
  unfold tier_mapping. simpl.
  repeat case_decide; subst;
    rewrite ?lookup_insert_eq, ?lookup_insert_ne, ?lookup_empty by done; done.
Qed.

(** X11: the model name of a configuration is always one of [gpt-3.5-turbo],
    [gpt-4] and [gpt-4o]; it is [gpt-4] for every provider other than [openai],
    whatever the tier, and an absent provider counts as [openai]: only then do
    the tiers [gpt-3.5] and [gpt-4o] give the other two names. *)
Theorem map_model_to_openai_range (model_config : Model) :
  let mapped := _map_model_to_openai model_config in
  let on_openai := provider model_config = None ∨ provider model_config = Some "openai" in
  mapped ∈ ["gpt-3.5-turbo"; "gpt-4"; "gpt-4o"] ∧
  (¬ on_openai → mapped = "gpt-4") ∧
  (mapped = "gpt-3.5-turbo" ↔ on_openai ∧ tier model_config = Some "gpt-3.5") ∧
  (mapped = "gpt-4o" ↔ on_openai ∧ tier model_config = Some "gpt-4o").
Proof.
  unfold _map_model_to_openai, get. rewrite tier_mapping_lookup.
  destruct model_config as [[p|] f [t|]]; simpl;
    repeat case_decide; subst; simpl; rewrite !elem_of_cons; naive_solver.
Qed.

(** X12: every tool is mapped on its own and in place: the mapped list is the
    concatenation, in order, of what each tool maps to alone; it is never longer
    than the list of tools, and each of its entries is an object whose first
    member is [type], with value [code_interpreter], [file_search] or
    [function]. *)
Theorem map_tools_to_openai_pointwise (tools : list Tool) :
  let mapped := _map_tools_to_openai tools in
  mapped = concat ((λ tool, _map_tools_to_openai [tool]) <$> tools) ∧
  length mapped ≤ length tools ∧
  ∀ entry, entry ∈ mapped →
    ∃ kind members,
      entry = JObject (("type", JString kind) :: members) ∧
      kind ∈ ["code_interpreter"; "file_search"; "function"].
Proof.
  cbv zeta. induction tools as [|tool tools (IHconcat & IHlength & IHkind)].
  - split; [done|]. split; [done|]. by intros entry ?%elem_of_nil.
  - change (_map_tools_to_openai (tool :: tools))
      with (_map_tools_to_openai ([tool] ++ tools)).
    rewrite map_tools_to_openai_app, length_app, fmap_cons. cbn [concat length].
    rewrite <- IHconcat.
    assert (length (_map_tools_to_openai [tool]) ≤ 1 ∧
            ∀ entry, entry ∈ _map_tools_to_openai [tool] →
              ∃ kind members,
                entry = JObject (("type", JString kind) :: members) ∧
                kind ∈ ["code_interpreter"; "file_search"; "function"])
      as [Hlength Hkind].
    { unfold _map_tools_to_openai. simpl. repeat case_decide; simpl.
      - split; [lia|]. intros entry ->%list_elem_of_singleton.
        destruct (tool_id tool) as [tid|] eqn:Hid.
        + exists tid, []. split; [done|].
          match goal with H : Some tid ∈ _ |- _ => rename H into Hallowed end.
          rewrite !elem_of_cons, elem_of_nil in Hallowed.
          rewrite !elem_of_cons. naive_solver.
        + match goal with H : None ∈ _ |- _ => rename H into Hallowed end.
          rewrite !elem_of_cons, elem_of_nil in Hallowed. naive_solver.
      - split; [lia|]. by intros entry ?%elem_of_nil.
      - split; [lia|]. intros entry ->%list_elem_of_singleton.
        eexists "function", _. split; [done|]. rewrite !elem_of_cons. auto.
      - split; [lia|]. by intros entry ?%elem_of_nil. }
    split; [done|]. split; [lia|].
    intros entry [Hentry|Hentry]%elem_of_app; auto.
Qed.

(** X13: the configuration strategy fails as the loading of the specification
    fails: a missing file raises [FileNotFoundError], an error of the loader
    leaves the call as it is, and an empty document raises [AttributeError] at
    the first [spec.get].  So a run that returns has found its source file,
    the file has parsed to a mapping, and the path returned is named after
    that mapping. *)
Theorem render_assistant_config_load_failures self (fs : gmap string string)
    (spec_path output_dir : string) :
  (∀ output_file fs',
     render_assistant_config self fs spec_path output_dir = Ok (output_file, fs') →
     ∃ text spec,
       fs !! spec_path = Some text ∧ safe_load text = Ok (Some spec) ∧
       output_file
       = truediv output_dir (get (id spec) (stem spec_path) +:+ "_assistant.json")) ∧
  (fs !! spec_path = None →
   ∃ msg, render_assistant_config self fs spec_path output_dir
          = Raise (FileNotFoundError msg)) ∧
  (∀ text, fs !! spec_path = Some text → safe_load text = Ok None →
   ∃ msg, render_assistant_config self fs spec_path output_dir
          = Raise (AttributeError msg)) ∧
  (∀ text e, fs !! spec_path = Some text → safe_load text = Raise e →
   render_assistant_config self fs spec_path output_dir = Raise e).
Proof.
  unfold render_assistant_config, load_agent_spec, open_read.
  split; [|split; [|split]].
  - intros output_file fs' Hrun.
    destruct (fs !! spec_path) as [text|]; simpl in Hrun; [|done].
    destruct (safe_load text) as [[spec|]|e] eqn:Hload; simpl in Hrun; try done.
    injection Hrun as <- _. eauto.
  - intros ->. simpl. eauto.
  - intros text -> Hload. simpl. rewrite Hload. simpl. eauto.
  - intros text e -> Hload. simpl. by rewrite Hload.
Qed.

(** X14: a run of the configuration strategy writes one file and leaves every
    other file as it was; run again on the files it left, it returns the same
    path and changes nothing, as long as it did not overwrite its own source. *)
Theorem render_assistant_config_writes_one_file self (fs fs' : gmap string string)
    (spec_path output_dir output_file : string) :
  render_assistant_config self fs spec_path output_dir = Ok (output_file, fs') →
  is_Some (fs' !! output_file) ∧
  (∀ path, path ≠ output_file → fs' !! path = fs !! path) ∧
  (output_file ≠ spec_path →
   render_assistant_config self fs' spec_path output_dir = Ok (output_file, fs')).
Proof.
  unfold render_assistant_config, load_agent_spec, open_read, open_write.
  destruct (fs !! spec_path) as [text|] eqn:Hfile; simpl; [|done].
  destruct (safe_load text) as [[spec|]|e] eqn:Hload; simpl; [|done|done].
  intros [= <- <-]. split; [|split].
  - rewrite lookup_insert_eq. eauto.
  - intros path Hpath. by rewrite lookup_insert_ne.
  - intros Hsource. rewrite lookup_insert_ne, Hfile by done. simpl.
    rewrite Hload. simpl. by rewrite insert_insert_eq.
Qed.

End configuration.

(** ** The adapters and the renderer *)

Section siblings.
Context {Template : Type} `{!Yaml Agent, !Jinja2 Template, !Pathlib, !JsonDump}.

(** X15: the adapters and the renderer are two writings of the same strategies:
    built on the same templates directory, [ClaudeAdapter.generate_subagent_file]
    ends as [AgentRenderer.render_claude_agent] does, and
    [LangGraphAdapter.generate_agent_file] as
    [AgentRenderer.render_langgraph_agent] does: they return the same path and
    leave the same files, or raise the same exception. *)
Theorem adapters_agree_with_renderer (templates_dir : string) (fs : gmap string string)
    (spec_path output_dir : string) :
  ClaudeAdapter.generate_subagent_file (ClaudeAdapter.__init__ templates_dir)
    fs spec_path output_dir
  = AgentRenderer.render_claude_agent (AgentRenderer.__init__ templates_dir)
      fs spec_path output_dir ∧
  LangGraphAdapter.generate_agent_file (LangGraphAdapter.__init__ templates_dir)
    fs spec_path output_dir
  = AgentRenderer.render_langgraph_agent (AgentRenderer.__init__ templates_dir)
      fs spec_path output_dir.
Proof.
  unfold ClaudeAdapter.generate_subagent_file, AgentRenderer.render_claude_agent,
    LangGraphAdapter.generate_agent_file, AgentRenderer.render_langgraph_agent,
    ClaudeAdapter.render_agent, LangGraphAdapter.render_agent,
    AgentRenderer.load_agent_spec.
  destruct (open_read fs spec_path) as [text|]; simpl; [|done].
  destruct (safe_load text) as [spec|]; simpl; [|done].
  split.
  - destruct (get_template fs _ "claude_subagent.md.jinja") as [template|]; simpl; [|done].
    by destruct (render template spec).
  - destruct (get_template fs _ "langgraph_agent.py.jinja") as [template|]; simpl; [|done].
    by destruct (render template spec).
Qed.

End siblings.

(** ** The dependency manifest and the aggregator program *)

Section manifest.
Context `{!Pathlib, !SetOrder}.
Implicit Types (self : LangGraphAdapter.t).
Import LangGraphAdapter.

(** X16: the manifest depends only on which of the two providers occur: two
    lists of specifications in which the same ones of [anthropic] and [openai]
    occur, an absent provider counting as [anthropic], give the same lines,
    whatever their order, length and repetitions. *)
Theorem requirement_lines_depend_on_providers_only (specs1 specs2 : list Agent) :
  let occurs p specs :=
    ∃ spec, spec ∈ specs ∧
      get (provider (get (model spec) empty_model)) "anthropic" = p in
  (occurs "anthropic" specs1 ↔ occurs "anthropic" specs2) →
  (occurs "openai" specs1 ↔ occurs "openai" specs2) →
  requirement_lines specs1 = requirement_lines specs2.
Proof.
  intros occurs Hanthropic Hopenai. unfold requirement_lines.
  f_equal. f_equal. apply set_eq. intros r.
  rewrite !elem_of_add_model_requirements. unfold occurs in *. naive_solver.
Qed.

(** X17: the manifest never holds anything but the three base packages and the
    two provider packages; a provider other than [anthropic] and [openai] adds
    nothing, so that specifications of other providers only, and no
    specification at all, give the three base packages. *)
Theorem requirement_lines_closed (specs : list Agent) :
  (∀ r, r ∈ requirement_lines specs →
     r ∈ ["langchain-anthropic>=0.1.0"; "langchain-core>=0.1.0";
          "langchain-openai>=0.1.0"; "langchain>=0.1.0"; "langgraph>=0.0.60"]) ∧
  3 ≤ length (requirement_lines specs) ≤ 5 ∧
  ((∀ spec, spec ∈ specs →
      ∃ m p, model spec = Some m ∧ provider m = Some p ∧
        p ≠ "anthropic" ∧ p ≠ "openai") →
   requirement_lines specs
   = ["langchain-core>=0.1.0"; "langchain>=0.1.0"; "langgraph>=0.0.60"]).
Proof.
  assert (∀ r, r ∈ requirement_lines specs →
     r ∈ ["langchain-anthropic>=0.1.0"; "langchain-core>=0.1.0";
          "langchain-openai>=0.1.0"; "langchain>=0.1.0"; "langgraph>=0.0.60"])
    as Hclosed.
  { intros r. rewrite elem_of_requirement_lines, elem_of_add_model_requirements.
    unfold base_requirements. rewrite elem_of_list_to_set, !elem_of_cons, !elem_of_nil.
    naive_solver. }
  split; [exact Hclosed|]. split; [split|].
  - assert (["langchain-core>=0.1.0"; "langchain>=0.1.0"; "langgraph>=0.0.60"]
              ⊆+ requirement_lines specs) as Hbase.
    { apply NoDup_submseteq; [by vm_compute; repeat constructor; set_solver|].
      intros r Hr. apply elem_of_requirement_lines, elem_of_add_model_requirements.
      left. unfold base_requirements. rewrite elem_of_list_to_set.
      rewrite !elem_of_cons, elem_of_nil in *. tauto. }
    by apply submseteq_length in Hbase.
  - assert (requirement_lines specs
              ⊆+ ["langchain-anthropic>=0.1.0"; "langchain-core>=0.1.0";
                  "langchain-openai>=0.1.0"; "langchain>=0.1.0"; "langgraph>=0.0.60"])
      as Hall.
    { apply NoDup_submseteq; [|exact Hclosed].
      unfold requirement_lines. rewrite sorted_Permutation. apply set_iter_NoDup. }
    by apply submseteq_length in Hall.
  - intros Hother.
    assert (add_model_requirements base_requirements specs = base_requirements) as Hset.
    { apply set_eq. intros r. rewrite elem_of_add_model_requirements.
      split; [|auto].
      intros [Hr|[[_ (spec & Hspec & Hp)]|[_ (spec & Hspec & Hp)]]]; [done| |];
        destruct (Hother spec Hspec) as (m & p & Hm & Hpm & Hne1 & Hne2);
        rewrite Hm in Hp; simpl in Hp; rewrite Hpm in Hp; simpl in Hp; by subst. }
    unfold requirement_lines. rewrite Hset.
    rewrite (sorted_order_irrelevant _ _ (set_iter_perm _)). by vm_compute.
Qed.

End manifest.

Section aggregator.
Context {Template : Type} `{!Yaml Agent, !Jinja2 Template, !Pathlib}.
Implicit Types (self : LangGraphAdapter.t).
Import LangGraphAdapter.

Lemma str_in_here (sub rest : string) : str_in sub (sub +:+ rest) = true.
Proof.
  destruct sub as [|c sub]; [by destruct rest|].
  change (String c sub +:+ rest) with (String c (sub +:+ rest)).
  cbn [str_in]. apply orb_true_intro. left. apply (startswith_append (String c sub)).
Qed.

Lemma str_in_later (sub before s : string) :
  str_in sub s = true → str_in sub (before +:+ s) = true.
Proof.
  intros Hs. induction before as [|c before IH]; [done|].
  change (String c before +:+ s) with (String c (before +:+ s)).
  cbn [str_in]. rewrite IH. apply orb_true_r.
Qed.

Lemma startswith_app_l (p s rest : string) :
  startswith p s = true → startswith p (s +:+ rest) = true.
Proof.
  unfold startswith. revert s. induction p as [|c p IH]; intros s.
  - intros _. by destruct (s +:+ rest).
  - destruct s as [|c' s]; [done|].
    change (String c' s +:+ rest) with (String c' (s +:+ rest)). simpl.
    destruct (Ascii.ascii_dec c c'); [apply IH | done].
Qed.

Lemma str_in_app_l (sub s rest : string) :
  str_in sub s = true → str_in sub (s +:+ rest) = true.
Proof.
  induction s as [|c s IH].
  - cbn [str_in]. rewrite orb_false_r. intros Hsub.
    destruct sub; [|done]. destruct rest; by cbn.
  - change (String c s +:+ rest) with (String c (s +:+ rest)). cbn [str_in].
    intros [Hhere|Hlater]%orb_prop; apply orb_true_intro.
    + left. by apply (startswith_app_l sub (String c s)).
    + right. by apply IH.
Qed.

Lemma appended_text (line : Agent → string) (specs : list Agent) (written : string) :
  foldl (λ app_content spec, app_content +:+ line spec) written specs
  = written +:+ foldr (λ spec rest, line spec +:+ rest) "" specs.
Proof.
  revert written. induction specs as [|spec specs IH]; intros written; cbn [foldl foldr].
  - by rewrite string_append_nil_r.
  - by rewrite IH, string_append_assoc.
Qed.

(** A loop that appends one line for each specification: the line of a
    specification stands in the text, after what was there before. *)
Lemma appended_lines (line : Agent → string) (specs : list Agent) (k : nat)
    (spec : Agent) (written : string) :
  specs !! k = Some spec →
  ∃ before after,
    foldl (λ app_content spec, app_content +:+ line spec) written specs
    = (written +:+ before) +:+ line spec +:+ after.
Proof.
  revert k written. induction specs as [|spec' specs IH]; intros k written Hk; [done|].
  destruct k as [|k]; simpl in Hk.
  - injection Hk as ->. cbn [foldl].
    exists "", (foldr (λ spec rest, line spec +:+ rest) "" specs).
    by rewrite appended_text, string_append_nil_r, string_append_assoc.
  - cbn [foldl]. destruct (IH k (written +:+ line spec') Hk) as (before & after & ->).
    exists (line spec' +:+ before), after. by rewrite !string_append_assoc.
Qed.

(** The text of the aggregator program, around the two lines of one of the
    specifications. *)
Lemma app_content_lines self (fs : gmap string string) (specs : list Agent)
    (output_dir : string) (k : nat) (spec : Agent) :
  specs !! k = Some spec →
  let agent_id := get (id spec) "unknown" in
  let class_name := replace "-" "_" agent_id in
  ∃ app_content,
    generate_app_file self fs specs output_dir
      = (truediv output_dir "app.py",
         open_write fs (truediv output_dir "app.py") app_content) ∧
    startswith app_header app_content = true ∧
    str_in ("from " +:+ class_name +:+ "_agent import create_" +:+ class_name
              +:+ "_agent" +:+ newline) app_content = true ∧
    str_in ("    agents[" +:+ dquote +:+ agent_id +:+ dquote +:+ "] = create_"
              +:+ class_name +:+ "_agent()" +:+ newline) app_content = true.
Proof.
  intros Hk agent_id class_name. unfold generate_app_file. cbv zeta.
  destruct (appended_lines
              (λ spec, "from " +:+ replace "-" "_" (get (id spec) "unknown")
                         +:+ "_agent import create_"
                         +:+ replace "-" "_" (get (id spec) "unknown")
                         +:+ "_agent" +:+ newline)
              specs k spec app_header Hk) as (before1 & after1 & Himports).
  rewrite Himports.
  match goal with
  | |- context [foldl _ ?written specs] =>
      destruct (appended_lines
                  (λ spec, "    agents[" +:+ dquote +:+ get (id spec) "unknown" +:+ dquote
                             +:+ "] = create_"
                             +:+ replace "-" "_" (get (id spec) "unknown")
                             +:+ "_agent()" +:+ newline)
                  specs k spec written Hk)
        as (before2 & after2 & Hregistry)
  end.
  rewrite Hregistry. fold agent_id class_name.
  eexists. split; [reflexivity|].
  split; [|split].
  - do 5 apply startswith_app_l. apply startswith_append.
  - do 4 apply str_in_app_l. apply str_in_later, str_in_here.
  - apply str_in_app_l, str_in_later, str_in_here.
Qed.

(** X18: the aggregator program starts with the fixed header and, for every
    specification of the list, holds the line that imports its factory and the
    line that registers it under its identifier, [-] being replaced by [_] in
    the names of the module and of the factory; a specification without [id]
    is imported and registered as [unknown]. *)
Theorem app_file_imports_and_registers_every_agent self (fs : gmap string string)
    (specs : list Agent) (output_dir : string) (spec : Agent) :
  spec ∈ specs →
  let agent_id := match id spec with Some agent_id => agent_id | None => "unknown" end in
  let class_name := replace "-" "_" agent_id in
  let written := generate_app_file self fs specs output_dir in
  written.1 = truediv output_dir "app.py" ∧
  ∃ app_content,
    written.2 !! written.1 = Some app_content ∧
    startswith app_header app_content = true ∧
    str_in ("from " +:+ class_name +:+ "_agent import create_" +:+ class_name
              +:+ "_agent" +:+ newline) app_content = true ∧
    str_in ("    agents[" +:+ dquote +:+ agent_id +:+ dquote +:+ "] = create_"
              +:+ class_name +:+ "_agent()" +:+ newline) app_content = true.
Proof.
  intros [k Hk]%list_elem_of_lookup.
  destruct (app_content_lines self fs specs output_dir k spec Hk)
    as (app_content & -> & Hheader & Himport & Hregister).
  cbv zeta. cbn [fst snd]. split; [done|]. exists app_content.
  unfold open_write. rewrite lookup_insert_eq.
  split; [done|]. split; [exact Hheader|]. unfold get in Himport, Hregister.
  by destruct (id spec).
Qed.

(** X19: for a specification with an [id] the module the aggregator imports is
    the file [generate_agent_file] writes, [<id with - replaced by _>_agent];
    for one without [id] the file is named after the stem of its source while
    the aggregator imports [unknown_agent]. *)
Theorem app_imports_and_generated_file_names self (fs fs' : gmap string string)
    (specs : list Agent) (spec : Agent) (spec_path output_dir output_file text : string) :
  spec ∈ specs →
  open_read fs spec_path = Ok text →
  safe_load text = Ok (Some spec) →
  generate_agent_file self fs spec_path output_dir = Ok (output_file, fs') →
  ∃ app_content class_name,
    (generate_app_file self fs' specs output_dir).2 !! truediv output_dir "app.py"
      = Some app_content ∧
    str_in ("from " +:+ class_name +:+ "_agent import create_" +:+ class_name
              +:+ "_agent" +:+ newline) app_content = true ∧
    (∀ agent_id, id spec = Some agent_id →
       class_name = replace "-" "_" agent_id ∧
       output_file = truediv output_dir (class_name +:+ "_agent.py")) ∧
    (id spec = None →
       class_name = "unknown" ∧
       output_file
       = truediv output_dir (replace "-" "_" (stem spec_path) +:+ "_agent.py")).
Proof.
  intros [k Hk]%list_elem_of_lookup Hfile Hload Hrun.
  destruct (app_content_lines self fs' specs output_dir k spec Hk)
    as (app_content & -> & _ & Himport & _).
  exists app_content, (replace "-" "_" (get (id spec) "unknown")).
  cbn [snd]. unfold open_write. rewrite lookup_insert_eq.
  split; [done|]. split; [exact Himport|].
  unfold generate_agent_file in Hrun. rewrite Hfile in Hrun. simpl in Hrun.
  rewrite Hload in Hrun. simpl in Hrun.
  destruct (render_agent self fs (Some spec)) as [python_content|]; [|done].
  simpl in Hrun. injection Hrun as <- _. split.
  - intros agent_id Hid. by rewrite Hid.
  - intros Hid. by rewrite Hid.
Qed.

End aggregator.

(** ** The further properties on concrete inputs *)

Section more_on_samples.
#[local] Existing Instances Sample.set_order Sample.pathlib Sample.jinja2
  Sample.json_dumper Sample.recipe_schema Sample.agent_schema Sample.agent_yaml
  Sample.recipe_yaml Sample.rglob_files.

(** X2 on the unparsable file of the repository. *)
Lemma unparsable_file_reported_alone_witness :
  Sample.repository !! "agents/ops/broken.yaml" = Some "[unclosed" ∧
  safe_load (Yaml := Sample.agent_yaml) "[unclosed"
    = Raise (YAMLError "while parsing a flow sequence") ∧
  AgentValidator.validate_file (Doc := Agent) Sample.agent_validator Sample.repository
    "agents/ops/broken.yaml"
    = Ok (false, ["YAML parsing error: " +:+ "while parsing a flow sequence"]) ∧
  RecipeValidator.validate_file Sample.recipe_validator Sample.repository
    "agents/ops/broken.yaml"
    = Ok (false, ["YAML parsing error: " +:+ "while parsing a flow sequence"]).
Proof.
  split; [reflexivity|]. split; [reflexivity|].
  apply (unparsable_file_reported_alone (agent_loader := Sample.agent_yaml)
           (recipe_loader := Sample.recipe_yaml)
           Sample.agent_validator Sample.recipe_validator Sample.repository
           "agents/ops/broken.yaml" "[unclosed" "while parsing a flow sequence");
    reflexivity.
Defined.

(** X3 on the agent whose provider the schema refuses. *)
Lemma validate_file_agrees_with_validate_data_witness :
  Sample.repository !! "agents/ops/odd.yaml" = Some "odd" ∧
  safe_load (Yaml := Sample.agent_yaml) "odd" = Ok (Some Sample.unknown_provider_agent) ∧
  AgentValidator.validate_file (Doc := Agent) Sample.agent_validator Sample.repository
    "agents/ops/odd.yaml"
    = AgentValidator.validate_data Sample.agent_validator Sample.unknown_provider_agent.
Proof.
  assert (iter_errors (AgentValidator.schema Sample.agent_validator)
            (Some Sample.unknown_provider_agent)
          = Ok [{| absolute_path := []; message := "'name' is a required property" |};
                {| absolute_path := [Key "model"; Key "provider"];
                   message := "'xyz' is not one of ['anthropic', 'openai']" |}])
    as Hfound by reflexivity.
  split; [reflexivity|]. split; [reflexivity|].
  exact (validate_file_agrees_with_validate_data Sample.agent_validator Sample.repository
           "agents/ops/odd.yaml" "odd" Sample.unknown_provider_agent _
           eq_refl eq_refl Hfound).
Defined.

(** X4 on the empty recipe file of the repository, for which the schema has a
    message of its own. *)
Lemma empty_recipe_file_loses_schema_errors_witness :
  Sample.repository !! "recipes/empty.yaml" = Some "" ∧
  safe_load (Yaml := Sample.recipe_yaml) "" = Ok None ∧
  iter_errors (RecipeValidator.schema Sample.recipe_validator) (None : option Recipe)
    = Ok [{| absolute_path := []; message := "None is not of type 'object'" |}] ∧
  RecipeValidator.validate_file Sample.recipe_validator Sample.repository
    "recipes/empty.yaml"
    = Ok (false, ["Validation error: 'NoneType' object has no attribute 'get'"]).
Proof.
  assert (iter_errors (RecipeValidator.schema Sample.recipe_validator) (None : option Recipe)
          = Ok [{| absolute_path := []; message := "None is not of type 'object'" |}])
    as Hfound by reflexivity.
  split; [reflexivity|]. split; [reflexivity|]. split; [exact Hfound|].
  exact (empty_recipe_file_loses_schema_errors Sample.recipe_validator Sample.repository
           "recipes/empty.yaml" "" _ eq_refl eq_refl Hfound).
Defined.

(** The well-formed recipe and the one with two [build] stages. *)
Example semantics_of_pipeline :
  RecipeValidator._validate_recipe_semantics (Some Sample.pipeline) = Ok [].
Proof. by vm_compute. Qed.

(** X6 on the well-formed recipe: the file is accepted. *)
Lemma recipe_file_accepted_iff_witness :
  let fs : gmap string string := {["recipes/pipeline.yaml" := "pipeline"]} in
  fs !! "recipes/pipeline.yaml" = Some "pipeline" ∧
  safe_load (Yaml := Sample.recipe_table) "pipeline" = Ok (Some Sample.pipeline) ∧
  RecipeValidator.validate_file (Yaml0 := Sample.recipe_table) Sample.recipe_validator fs
    "recipes/pipeline.yaml" = Ok (true, []).
Proof.
  intros fs.
  assert (iter_errors (RecipeValidator.schema Sample.recipe_validator)
            (Some Sample.pipeline) = Ok []) as Hfound by reflexivity.
  split; [reflexivity|]. split; [reflexivity|].
  apply (recipe_file_accepted_iff (Yaml0 := Sample.recipe_table) Sample.recipe_validator fs
           "recipes/pipeline.yaml" "pipeline" Sample.pipeline [] eq_refl eq_refl Hfound).
  split; [reflexivity|]. split.
  - vm_compute. repeat constructor; set_solver.
  - intros s Hs. simpl in Hs.
    repeat (apply elem_of_cons in Hs as [->|Hs]); [| |by apply elem_of_nil in Hs]; simpl.
    + split; [by intros [? ?] | done].
    + split; [done | by eexists].
Defined.

(** X7 on the recipe with two [build] stages and the message of its third
    stage, which has neither key. *)
Lemma semantic_errors_are_justified_witness :
  RecipeValidator._validate_recipe_semantics (Some Sample.build_twice)
    = Ok ["Duplicate stage names found: build";
          "Stage 'test' must have either 'parallel' or 'sequence' field";
          "Stage 'stage_3' cannot have both 'parallel' and 'sequence' fields"] ∧
  ((¬ NoDup (RecipeValidator.stage_names (get (graph Sample.build_twice) [])) ∧
    startswith "Duplicate stage names found: "
      "Stage 'test' must have either 'parallel' or 'sequence' field" = true) ∨
   ∃ i s, get (graph Sample.build_twice) [] !! i = Some s ∧
     let stage_name := str (get (stage s) (Str ("stage_" +:+ str_of_nat i))) in
     (parallel s = None ∧ sequence s = None ∧
      "Stage 'test' must have either 'parallel' or 'sequence' field"
      = "Stage '" +:+ stage_name
          +:+ "' must have either 'parallel' or 'sequence' field") ∨
     (is_Some (parallel s) ∧ is_Some (sequence s) ∧
      "Stage 'test' must have either 'parallel' or 'sequence' field"
      = "Stage '" +:+ stage_name
          +:+ "' cannot have both 'parallel' and 'sequence' fields")).
Proof.
  assert (RecipeValidator._validate_recipe_semantics (Some Sample.build_twice)
          = Ok ["Duplicate stage names found: build";
                "Stage 'test' must have either 'parallel' or 'sequence' field";
                "Stage 'stage_3' cannot have both 'parallel' and 'sequence' fields"])
    as Hrun by (by vm_compute).
  split; [exact Hrun|].
  apply (semantic_errors_are_justified Sample.build_twice _ _ Hrun).
  right. left.
Defined.

(** X8 on the recipe with two [build] stages: one message for the name and one
    for each of the two stages without exactly one execution mode. *)
Lemma semantic_errors_counted_witness :
  let errors :=
    ["Duplicate stage names found: build";
     "Stage 'test' must have either 'parallel' or 'sequence' field";
     "Stage 'stage_3' cannot have both 'parallel' and 'sequence' fields"] in
  RecipeValidator._validate_recipe_semantics (Some Sample.build_twice) = Ok errors ∧
  3 = (if decide (NoDup (RecipeValidator.stage_names (get (graph Sample.build_twice) [])))
       then 0 else 1)
      + length (filter (λ s, contains (parallel s) = contains (sequence s))
                  (get (graph Sample.build_twice) [])) ∧
  3 ≤ 1 + 4.
Proof.
  intros errors.
  assert (RecipeValidator._validate_recipe_semantics (Some Sample.build_twice) = Ok errors)
    as Hrun by (by vm_compute).
  split; [exact Hrun|].
  exact (semantic_errors_counted Sample.build_twice errors Hrun).
Defined.

(** X20 on the recipe with two [build] stages. *)
Lemma duplicate_string_stage_names_reported_once_witness :
  let names := RecipeValidator.stage_names (get (graph Sample.build_twice) []) in
  1 < count (Str "build") names ∧
  (∀ other, 1 < count other names → ∃ text, other = Str text) ∧
  ∃ errors,
    RecipeValidator._validate_recipe_semantics (Some Sample.build_twice) = Ok errors ∧
    filter (λ e, startswith "Duplicate stage names found: " e) errors
      = ["Duplicate stage names found: build"].
Proof.
  intros names.
  assert (1 < count (Str "build") names) as Hcount by (by apply build_twice_duplicates).
  assert (∀ other, 1 < count other names → ∃ text, other = Str text) as Hstr.
  { intros other ->%build_twice_duplicates. by eexists. }
  split; [exact Hcount|]. split; [exact Hstr|].
  destruct (duplicate_string_stage_names_reported_once Sample.build_twice "build"
              Hcount Hstr) as (errors & duplicates & Hrun & Hnodup & Hiff & Hfilter & _).
  exists errors. split; [exact Hrun|].
  rewrite Hfilter. do 2 f_equal.
  rewrite (NoDup_singleton_iff duplicates "build" Hnodup); [done|].
  intros n. rewrite Hiff. unfold names. rewrite build_twice_duplicates.
  split; [by intros [= ->] | by intros ->].
Defined.

(** X21 on the recipe with two stages named [1]. *)
Lemma duplicate_non_string_stage_names_raise_witness :
  let names := RecipeValidator.stage_names (get (graph Sample.numbered) []) in
  1 < count (Int 1) names ∧
  ∃ msg,
    RecipeValidator._validate_recipe_semantics (Some Sample.numbered)
      = Raise (TypeError msg) ∧
    RecipeValidator.validate_file Sample.recipe_validator Sample.files
      "recipes/numbered.yaml"
      = Ok (false, ["Validation error: " +:+ msg]).
Proof.
  intros names.
  assert (1 < count (Int 1) names) as Hcount by (vm_compute; lia).
  split; [exact Hcount|].
  destruct (duplicate_non_string_stage_names_raise Sample.numbered (Int 1) Hcount)
    as (msg & Hrun & Hfile); [done|].
  exists msg. split; [exact Hrun|].
  apply (Hfile Sample.recipe_validator Sample.files "recipes/numbered.yaml" "numbered" []);
    reflexivity.
Defined.

(** X9 on the repository: six files counted, the template left out. *)
Lemma validate_all_files_accounts_for_every_file_witness :
  ∃ results,
    validate_all_files (ASchema := unit) (RSchema := unit) (Doc := Agent)
      Sample.repository "agents" "recipes" "schemas" = Ok results ∧
    Results.total_files (Results.summary results) = 6 ∧
    Results.total_files (Results.summary results)
      = Results.valid_files (Results.summary results)
        + Results.invalid_files (Results.summary results) ∧
    "agents/_templates/agent-template.yaml" ∈ rglob Sample.repository "agents" "*.yaml" ∧
    "agents/_templates/agent-template.yaml"
      ∉ Results.valid (Results.agents results)
        ++ (Results.file <$> Results.invalid (Results.agents results)).
Proof.
  destruct (validate_all_files (ASchema := unit) (RSchema := unit) (Doc := Agent)
              Sample.repository "agents" "recipes" "schemas") as [results|e] eqn:Hrun;
    [|vm_compute in Hrun; discriminate Hrun].
  exists results. split; [reflexivity|].
  destruct (validate_all_files_accounts_for_every_file Sample.repository
              "agents" "recipes" "schemas" results Hrun)
    as (Hagents & _ & Htotal & _ & _ & Hsum & _).
  split; [rewrite Htotal; by vm_compute|]. split; [exact Hsum|].
  split; [apply (bool_decide_unpack _); by vm_compute|].
  rewrite Hagents. apply (bool_decide_unpack _). by vm_compute.
Defined.

(** X10 on the repository, and on a directory of schemas that does not exist. *)
Example validate_all_files_without_schemas :
  validate_all_files (ASchema := unit) (RSchema := unit) (Doc := Agent)
    Sample.repository "agents" "recipes" "nowhere"
  = Raise (FileNotFoundError
             "[Errno 2] No such file or directory: 'nowhere/agent-spec-v1.json'").
Proof. by vm_compute. Qed.

(** X14 on the draft agent: the second run changes nothing. *)
Lemma render_assistant_config_writes_one_file_witness :
  let self := AgentRenderer.__init__ "templates" in
  let fs' :=
    open_write Sample.files "out/draft_assistant.json"
      (json_dump (AgentRenderer.assistant_config Sample.draft_agent)) in
  AgentRenderer.render_assistant_config self Sample.files "agents/draft.yaml" "out"
    = Ok ("out/draft_assistant.json", fs') ∧
  fs' !! "agents/draft.yaml" = Sample.files !! "agents/draft.yaml" ∧
  AgentRenderer.render_assistant_config self fs' "agents/draft.yaml" "out"
    = Ok ("out/draft_assistant.json", fs').
Proof.
  intros self fs'.
  assert (AgentRenderer.render_assistant_config self Sample.files "agents/draft.yaml" "out"
          = Ok ("out/draft_assistant.json", fs')) as Hrun by reflexivity.
  destruct (render_assistant_config_writes_one_file self Sample.files fs'
              "agents/draft.yaml" "out" "out/draft_assistant.json" Hrun)
    as (_ & Hframe & Hagain).
  split; [exact Hrun|]. split; [by apply Hframe | by apply Hagain].
Defined.

(** X16 on two lists in which both providers occur, once declared and once by
    default. *)
Lemma requirement_lines_depend_on_providers_only_witness :
  LangGraphAdapter.requirement_lines
    [Sample.test_agent; Sample.openai_agent; Sample.test_agent]
  = LangGraphAdapter.requirement_lines [Sample.openai_agent; Sample.draft_agent].
Proof.
  apply (requirement_lines_depend_on_providers_only
           [Sample.test_agent; Sample.openai_agent; Sample.test_agent]
           [Sample.openai_agent; Sample.draft_agent]).
  - split; intros _.
    + exists Sample.draft_agent. split; [|reflexivity]. right. left.
    + exists Sample.test_agent. split; [|reflexivity]. left.
  - split; intros _.
    + exists Sample.openai_agent. split; [|reflexivity]. left.
    + exists Sample.openai_agent. split; [|reflexivity]. right. left.
Defined.

(** The aggregator program of no specification: the three fixed texts. *)
Example app_file_of_no_agent :
  LangGraphAdapter.generate_app_file (LangGraphAdapter.__init__ "templates") ∅ [] "out"
  = ("out/app.py",
     {["out/app.py" :=
         (LangGraphAdapter.app_header +:+ LangGraphAdapter.app_registry)
           +:+ LangGraphAdapter.app_endpoints]}).
Proof. reflexivity. Qed.

(** X18 on the test agent of the adapters' tests, next to the draft agent. *)
Lemma app_file_imports_and_registers_every_agent_witness :
  let written :=
    LangGraphAdapter.generate_app_file (LangGraphAdapter.__init__ "templates") ∅
      [Sample.test_agent; Sample.draft_agent] "out" in
  Sample.test_agent ∈ [Sample.test_agent; Sample.draft_agent] ∧
  written.1 = "out/app.py" ∧
  ∃ app_content,
    written.2 !! written.1 = Some app_content ∧
    startswith LangGraphAdapter.app_header app_content = true ∧
    str_in ("from " +:+ "test_agent" +:+ "_agent import create_" +:+ "test_agent"
              +:+ "_agent" +:+ LangGraphAdapter.newline) app_content = true ∧
    str_in ("    agents[" +:+ dquote +:+ "test-agent" +:+ dquote +:+ "] = create_"
              +:+ "test_agent" +:+ "_agent()" +:+ LangGraphAdapter.newline) app_content
      = true.
Proof.
  intros written.
  assert (Sample.test_agent ∈ [Sample.test_agent; Sample.draft_agent]) as Hspec by left.
  split; [exact Hspec|].
  exact (app_file_imports_and_registers_every_agent
           (LangGraphAdapter.__init__ "templates") ∅
           [Sample.test_agent; Sample.draft_agent] "out" Sample.test_agent Hspec).
Defined.

(** X19 on the draft agent, which has no [id]: the file is [draft_agent.py], the
    import is of [unknown_agent]. *)
Lemma app_imports_and_generated_file_names_witness :
  let self := LangGraphAdapter.__init__ "templates" in
  let fs' := open_write Sample.files "out/draft_agent.py" "# agent Draft" in
  LangGraphAdapter.generate_agent_file self Sample.files "agents/draft.yaml" "out"
    = Ok ("out/draft_agent.py", fs') ∧
  ∃ app_content,
    (LangGraphAdapter.generate_app_file self fs' [Sample.draft_agent] "out").2
      !! "out/app.py" = Some app_content ∧
    str_in ("from unknown_agent import create_unknown_agent" +:+ LangGraphAdapter.newline)
      app_content = true.
Proof.
  intros self fs'.
  assert (LangGraphAdapter.generate_agent_file self Sample.files "agents/draft.yaml" "out"
          = Ok ("out/draft_agent.py", fs')) as Hrun by reflexivity.
  split; [exact Hrun|].
  destruct (app_imports_and_generated_file_names self Sample.files fs'
              [Sample.draft_agent] Sample.draft_agent "agents/draft.yaml" "out"
              "out/draft_agent.py" "draft") as
    (app_content & class_name & Hwritten & Himport & _ & Hunknown);
    [left | reflexivity | reflexivity | exact Hrun |].
  destruct Hunknown as [-> _]; [reflexivity|].
  exists app_content. split; [exact Hwritten | exact Himport].
Defined.

End more_on_samples.
